(** * The AAD analyzer script ([scripts/aad_analyzer.py])

    A shallow embedding of the script and the properties of its four
    stages: schema inspection, bulk load, example queries, CSV export.

    The script talks to things it does not define: the SQLite engine,
    pandas, the clock and the file system.  What the properties depend
    on (table enumeration, [PRAGMA table_info], [SELECT COUNT],
    [SELECT *], the [.str] methods used by the export, the directory
    test of [to_csv]) is modelled here; the rest (the answers of the
    example queries, the year clean-up done with pandas, the readings of
    the clock, the file names the operating system refuses) is a
    parameter, collected in the record [Libs]. *)

From Stdlib Require Import String Ascii ZArith.
From stdpp Require Import gmap list.

Local Open Scope Z_scope.
Local Open Scope nat_scope.

(** ** Python strings *)

(** A Python [str] is a sequence of Unicode code points. *)
Definition pychar := N.
Definition pystr := list pychar.

(** String literals of the script. *)
Definition py (s : string) : pystr := map N_of_ascii (list_ascii_of_string s).

Definition LF : pychar := 10%N.
Definition CR : pychar := 13%N.
Definition SPACE : pychar := 32%N.
Definition UNDERSCORE : pychar := 95%N.
Definition DQUOTE : pychar := 34%N.
Definition SLASH : pychar := 47%N.

(** [s.replace(old, new)] for one-character [old] and [new], the only
    form the script uses. *)
Definition replace (old new : pychar) (s : pystr) : pystr :=
  map (fun c => if N.eqb c old then new else c) s.

(** [c.isspace()]: the characters removed by [str.strip()]. *)
Definition isspace (c : pychar) : bool :=
  ((9 <=? c) && (c <=? 13) || (28 <=? c) && (c <=? 32)
   || (c =? 133) || (c =? 160) || (c =? 5760)
   || (8192 <=? c) && (c <=? 8202)
   || (c =? 8232) || (c =? 8233) || (c =? 8239) || (c =? 8287)
   || (c =? 12288))%N.

Fixpoint lstrip (s : pystr) : pystr :=
  match s with
  | c :: s' => if isspace c then lstrip s' else s
  | [] => []
  end.

Definition rstrip (s : pystr) : pystr := rev (lstrip (rev s)).

(** [s.strip()] *)
Definition strip (s : pystr) : pystr := lstrip (rstrip s).

(** ** Values, Series and DataFrames *)

(** A value as SQLite stores it and pandas holds it.  [VNull] is both
    [None] and [NaN]; a REAL is kept as its 64 bits. *)
Inductive cell :=
  | VNull
  | VInt (z : Z)
  | VReal (bits : Z)
  | VText (s : pystr)
  | VBlob (b : list N).

Inductive dtype := dt_object | dt_int64 | dt_float64.

Global Instance dtype_eq_dec : EqDecision dtype.
Proof. solve_decision. Defined.

Global Instance cell_eq_dec : EqDecision cell.
Proof. solve_decision. Defined.

Record Series := mkSeries { s_dtype : dtype; s_values : list cell }.

(** A DataFrame: its columns in order, each a label and a Series. *)
Definition DataFrame := list (pystr * Series).

(** [list(df.columns)] *)
Definition df_columns (df : DataFrame) : list pystr := map fst df.

(** [len(df)] *)
Definition df_len (df : DataFrame) : nat :=
  match df with
  | (_, s) :: _ => length (s_values s)
  | [] => 0
  end.

(** [df.shape] *)
Definition df_shape (df : DataFrame) : nat * nat := (df_len df, length df).

(** [df.head(n)] *)
Definition df_head (n : nat) (df : DataFrame) : DataFrame :=
  map (fun p => (p.1, mkSeries (s_dtype p.2) (take n (s_values p.2)))) df.

(** ** Exceptions *)

(** An exception: its class and what it reports.  The text is that of
    the library where it is fixed; where the message goes on with the
    statement, the name or the path at hand, it is cut there. *)
Inductive exn :=
  | DatabaseError (msg : string)
  | OperationalError (msg : string)
  | AttributeError (msg : string)
  | TypeError (msg : string)
  | KeyError (key : pystr)
  | OSError (msg : string)
  | ExecutionFailed (cause : exn).   (* pandas.errors.DatabaseError *)

Inductive result (A : Type) :=
  | Ok (a : A)
  | Raise (e : exn).
Arguments Ok {A} a.
Arguments Raise {A} e.

Definition rbind {A B} (r : result A) (f : A -> result B) : result B :=
  match r with
  | Ok a => f a
  | Raise e => Raise e
  end.

(** ** The [.str] accessor of pandas *)

(** What [pandas.api.types.infer_dtype(values, skipna=True)] finds in a
    column of the five kinds of values above. *)
Inductive inferred :=
  | inf_empty     (* no value but missing ones *)
  | inf_string
  | inf_bytes
  | inf_numeric   (* "integer", "floating", "mixed-integer-float" *)
  | inf_mixed.    (* "mixed", "mixed-integer" *)

Definition is_null (c : cell) : bool :=
  match c with VNull => true | _ => false end.
Definition is_text (c : cell) : bool :=
  match c with VText _ => true | _ => false end.
Definition is_blob (c : cell) : bool :=
  match c with VBlob _ => true | _ => false end.
Definition is_number (c : cell) : bool :=
  match c with VInt _ | VReal _ => true | _ => false end.

Definition infer_dtype (vs : list cell) : inferred :=
  match List.filter (fun c => negb (is_null c)) vs with
  | [] => inf_empty
  | present =>
      if forallb is_text present then inf_string
      else if forallb is_blob present then inf_bytes
      else if forallb is_number present then inf_numeric
      else inf_mixed
  end.

(** A string method on one element: an element that is not a [str]
    comes out missing. *)
Definition on_text (f : pystr -> pystr) (c : cell) : cell :=
  match c with
  | VText x => VText (f x)
  | _ => VNull
  end.

(** The Series an element-wise string method returns.  pandas converts
    the values it has computed: when the column held a value and none of
    its values was a [str], they are all [NaN] and the Series comes out
    as float64; it stays of object dtype when a [str] is among them, or
    when the column held nothing but missing values. *)
Definition str_values (f : pystr -> pystr) (vs : list cell) : Series :=
  mkSeries (if existsb is_text vs || forallb is_null vs
            then dt_object else dt_float64)
           (map (on_text f) vs).

Definition NOT_STRINGS : exn :=
  AttributeError "Can only use .str accessor with string values!".

Definition NOT_FOR_BYTES (method : string) : exn :=
  TypeError (String.append "Cannot use .str."
               (String.append method " with values of inferred dtype 'bytes'.")).

(** The element-wise string method [method] reached through
    [series.str]: the accessor refuses a column that is not of object
    dtype or holds only numbers, and the method refuses a column of
    bytes. *)
Definition str_method (method : string) (f : pystr -> pystr) (s : Series)
  : result Series :=
  match s_dtype s with
  | dt_object =>
      match infer_dtype (s_values s) with
      | inf_numeric => Raise NOT_STRINGS
      | inf_bytes => Raise (NOT_FOR_BYTES method)
      | _ => Ok (str_values f (s_values s))
      end
  | _ => Raise NOT_STRINGS
  end.

(** [df[col]]: the column labelled [col].  With no such label pandas
    raises [KeyError]; with several it returns a DataFrame, on which the
    [.dtype] the export asks for does not exist. *)
Definition df_getitem (df : DataFrame) (col : pystr) : result Series :=
  match List.filter (fun p => bool_decide (p.1 = col)) df with
  | [p] => Ok p.2
  | [] => Raise (KeyError col)
  | _ => Raise (AttributeError "'DataFrame' object has no attribute 'dtype'")
  end.

(** [df[col] = s] for a label already present. *)
Definition df_setitem (df : DataFrame) (col : pystr) (s : Series) : DataFrame :=
  map (fun p => if bool_decide (p.1 = col) then (p.1, s) else p) df.

(** [df[col].str.replace('\n', ' ').str.replace('\r', ' ').str.strip()] *)
Definition clean_series (s : Series) : result Series :=
  rbind (str_method "replace" (replace LF SPACE) s) (fun s1 =>
  rbind (str_method "replace" (replace CR SPACE) s1) (fun s2 =>
  str_method "strip" strip s2)).

(** The clean-up loop of the export, lines 167-169:
<<
    for col in df.columns:
        if df[col].dtype == 'object':
            df[col] = df[col].str.replace(...).str.replace(...).str.strip()
>> *)
Fixpoint clean_loop (cols : list pystr) (df : DataFrame) : result DataFrame :=
  match cols with
  | [] => Ok df
  | col :: rest =>
      rbind (df_getitem df col) (fun s =>
        if decide (s_dtype s = dt_object)
        then rbind (clean_series s) (fun s' => clean_loop rest (df_setitem df col s'))
        else clean_loop rest df)
  end.

Definition clean_frame (df : DataFrame) : result DataFrame :=
  clean_loop (df_columns df) df.

(** ** The database file *)

(** A column of a table: its name and declared type, as
    [PRAGMA table_info] reports them, and its values as
    [pd.read_sql_query] presents them (with the dtype pandas gives the
    column). *)
Record column := mkColumn { c_name : pystr; c_type : pystr; c_series : Series }.

Record table := mkTable { t_name : pystr; t_columns : list column }.

Definition database := list table.

(** What is found at [DB_PATH]: nothing, a file that is not an SQLite
    database, or a database. *)
Inductive dbfile :=
  | Missing
  | Garbage
  | Sqlite (db : database).

Definition find_table (db : database) (name : pystr) : option table :=
  List.find (fun t => bool_decide (t_name t = name)) db.

(** The whole of a table as a DataFrame. *)
Definition frame_of (t : table) : DataFrame :=
  map (fun c => (c_name c, c_series c)) (t_columns t).

Definition row_count (t : table) : nat :=
  match t_columns t with
  | c :: _ => length (s_values (c_series c))
  | [] => 0
  end.

(** The statements the script sends.  A table is named by
    [f'"{table_name}"']. *)
Inductive order_by := ByKey | ByCountDesc.

Inductive stmt :=
  | ListTables      (* SELECT name FROM sqlite_master WHERE type='table'; *)
  | TableInfo (t : pystr)                 (* PRAGMA table_info("t") *)
  | CountRows (t : pystr)                 (* SELECT COUNT( * ) FROM "t" *)
  | SelectAll (t : pystr)                 (* SELECT * FROM "t" *)
  | SelectLimit (t : pystr) (n : nat)     (* SELECT * FROM "t" LIMIT n *)
  | CountGroupBy (t col : pystr) (ord : order_by) (limit : option nat).
      (* SELECT col, COUNT( * ) as Count FROM "t" GROUP BY col ORDER BY .. *)

(** The table a statement reads, if it names one. *)
Definition stmt_table (q : stmt) : option pystr :=
  match q with
  | ListTables => None
  | TableInfo t | CountRows t | SelectAll t | SelectLimit t _
  | CountGroupBy t _ _ _ => Some t
  end.

(** ** What the script does not define *)

Record Libs := mkLibs {
  (** the answer of SQLite to a statement of the example queries *)
  sqlite_select : database -> stmt -> result DataFrame;
  (** [series.str.extract(r'(\d{4})', expand=False)] *)
  str_extract_year : Series -> result Series;
  (** [df.groupby('Year', as_index=False)['Count'].sum().sort_values('Year')] *)
  groupby_year_sum : DataFrame -> result DataFrame;
  (** [datetime.now().strftime('%Y%m%d_%H%M%S')] at the n-th reading of the clock *)
  strftime_now : nat -> pystr;
  (** the exception with which the operating system refuses to create a
      file of that name (too long, a character it does not take), if it
      does *)
  os_refuses : pystr -> option exn
}.

(** ** The world the script runs in *)

Inductive path :=
  | DB_PATH
  | LOG_DIR
  | OUTPUT_DIR
  | Join (dir : path) (name : pystr).

(** [p.name], the last component of a path. *)
Definition file_name (p : path) : pystr :=
  match p with
  | Join _ name => name
  | _ => []
  end.

Global Instance path_eq_dec : EqDecision path.
Proof. solve_decision. Defined.

(** A text from its first slash on, the slash left out. *)
Fixpoint after_slash (s : pystr) : pystr :=
  match s with
  | [] => []
  | c :: s' => if N.eqb c SLASH then s' else after_slash s'
  end.

(** A text up to its last slash. *)
Definition before_last_slash (s : pystr) : pystr := rev (after_slash (rev s)).

(** [p.parent], the directory a file at [p] is to stand in: for
    [dir / name] it is [dir], unless [name] holds a slash and so leads
    further down. *)
Definition parent (p : path) : option path :=
  match p with
  | Join dir name =>
      Some (if bool_decide (SLASH ∈ name)
            then Join dir (before_last_slash name) else dir)
  | _ => None
  end.

Inductive stage := Inspect | Load | Queries | Export.

Global Instance stage_eq_dec : EqDecision stage.
Proof. solve_decision. Defined.

(** What is observed of a run on the side of the database: a stage
    function is entered, a connection is opened, a statement is executed
    on a connection, a connection is closed. *)
Inductive event :=
  | EvCall (s : stage)
  | EvConnect (c : nat)
  | EvExecute (c : nat) (q : stmt)
  | EvClose (c : nat).

(** The pieces of a formatted message. *)
Inductive frag :=
  | Lit (s : string)
  | NL                                 (* "\n" inside a message *)
  | Rule (c : string) (n : nat)        (* c * n *)
  | Str (s : pystr)                    (* {s} *)
  | Padded (s : pystr) (width : nat)   (* {s:<width} *)
  | Num (n : nat)
  | Bool (b : bool)
  | Shape (sh : nat * nat)             (* {df.shape} *)
  | Names (l : list pystr)             (* {list(df.columns)} *)
  | Frame (df : DataFrame) (index : bool)   (* df.to_string(index=..) *)
  | PathOf (p : path)
  | Exc (e : exn).

Definition message := list frag.

Record world := mkWorld {
  w_dbfile : dbfile;                   (* the file at DB_PATH *)
  w_clock : nat;                       (* readings of the clock so far *)
  w_conns : nat;                       (* connections opened so far *)
  w_trace : list event;
  w_LOG_FILE : path;                   (* the global LOG_FILE *)
  w_log : option (list message);       (* the lines of LOG_FILE, if it exists *)
  w_console : list message;            (* standard output *)
  w_dirs : list path;                  (* directories found or made *)
  w_csv : list (path * DataFrame)      (* the writes of CSV files, in order *)
}.

(** *** What a step does to the world *)

(** An event is added to the trace. *)
Definition emit (e : event) (w : world) : world :=
  mkWorld (w_dbfile w) (w_clock w) (w_conns w) (w_trace w ++ [e]) (w_LOG_FILE w)
          (w_log w) (w_console w) (w_dirs w) (w_csv w).

(** A line is appended to LOG_FILE, which is created if need be. *)
Definition logged (msg : message) (w : world) : world :=
  mkWorld (w_dbfile w) (w_clock w) (w_conns w) (w_trace w) (w_LOG_FILE w)
          (Some (default [] (w_log w) ++ [msg])) (w_console w) (w_dirs w) (w_csv w).

(** A line is printed. *)
Definition printed (msg : message) (w : world) : world :=
  mkWorld (w_dbfile w) (w_clock w) (w_conns w) (w_trace w) (w_LOG_FILE w)
          (w_log w) (w_console w ++ [msg]) (w_dirs w) (w_csv w).

(** A directory is made. *)
Definition made_dir (p : path) (w : world) : world :=
  mkWorld (w_dbfile w) (w_clock w) (w_conns w) (w_trace w) (w_LOG_FILE w)
          (w_log w) (w_console w) (w_dirs w ++ [p]) (w_csv w).

(** A CSV file is written; what was at its path is replaced (see
    [csv_content]). *)
Definition wrote_csv (p : path) (df : DataFrame) (w : world) : world :=
  mkWorld (w_dbfile w) (w_clock w) (w_conns w) (w_trace w) (w_LOG_FILE w)
          (w_log w) (w_console w) (w_dirs w) (w_csv w ++ [(p, df)]).

(** The clock is read. *)
Definition ticked (w : world) : world :=
  mkWorld (w_dbfile w) (S (w_clock w)) (w_conns w) (w_trace w) (w_LOG_FILE w)
          (w_log w) (w_console w) (w_dirs w) (w_csv w).

(** A connection is opened; where there is no file, SQLite makes an
    empty database. *)
Definition connected (w : world) : world :=
  mkWorld (match w_dbfile w with Missing => Sqlite [] | f => f end)
          (w_clock w) (S (w_conns w)) (w_trace w ++ [EvConnect (w_conns w)])
          (w_LOG_FILE w) (w_log w) (w_console w) (w_dirs w) (w_csv w).

(** The global LOG_FILE is set. *)
Definition with_LOG_FILE (p : path) (w : world) : world :=
  mkWorld (w_dbfile w) (w_clock w) (w_conns w) (w_trace w) p
          (w_log w) (w_console w) (w_dirs w) (w_csv w).

(** ** Computations that change the world and may raise *)

Definition M (A : Type) := world -> result A * world.

Definition ret {A} (a : A) : M A := fun w => (Ok a, w).

Definition raise {A} (e : exn) : M A := fun w => (Raise e, w).

Definition bind {A B} (m : M A) (f : A -> M B) : M B := fun w =>
  match m w with
  | (Ok a, w') => f a w'
  | (Raise e, w') => (Raise e, w')
  end.

Notation "x <- m ;; k" := (bind m (fun x => k))
  (at level 100, m at next level, k at level 200, right associativity).
Notation "m ;; k" := (bind m (fun _ => k))
  (at level 100, k at level 200, right associativity).

Definition lift {A} (r : result A) : M A := fun w => (r, w).

(** [try: body  except Exception as e: handler(e)] *)
Definition try_except {A} (body : M A) (handler : exn -> M A) : M A := fun w =>
  match body w with
  | (Ok a, w') => (Ok a, w')
  | (Raise e, w') => handler e w'
  end.

(** [for x in l: body(x)] *)
Fixpoint for_each {A} (l : list A) (body : A -> M unit) : M unit :=
  match l with
  | [] => ret tt
  | x :: rest => body x ;; for_each rest body
  end.

(** A loop that carries a local variable. *)
Fixpoint for_fold {A S} (l : list A) (s : S) (body : A -> S -> M S) : M S :=
  match l with
  | [] => ret s
  | x :: rest => s' <- body x s ;; for_fold rest s' body
  end.

(** *** Files and console *)

(** [log_output(message)]: append the line to LOG_FILE, creating it. *)
Definition log_output (msg : message) : M unit := fun w => (Ok tt, logged msg w).

Definition print (msg : message) : M unit := fun w => (Ok tt, printed msg w).

(** [p.mkdir(exist_ok=True)] *)
Definition mkdir (p : path) : M unit := fun w => (Ok tt, made_dir p w).

Definition NO_DIRECTORY : exn :=
  OSError "Cannot save file into a non-existent directory".

(** [DB_PATH.exists()] *)
Definition db_exists : M bool := fun w =>
  (Ok (match w_dbfile w with Missing => false | _ => true end), w).

Definition call (s : stage) : M unit := fun w => (Ok tt, emit (EvCall s) w).

(** *** SQLite *)

(** [sqlite3.connect(DB_PATH)], in the default mode. *)
Definition connect : M nat := fun w => (Ok (w_conns w), connected w).

(** [conn.close()] *)
Definition close (c : nat) : M unit := fun w => (Ok tt, emit (EvClose c) w).

(** SQLite refuses a file that is not a database, and answers from the
    database otherwise. *)
Definition sqlite_answer {A} (f : dbfile) (answer : database -> result A)
  : result A :=
  match f with
  | Sqlite db => answer db
  | Garbage => Raise (DatabaseError "file is not a database")
  | Missing => answer []
  end.

(** [cursor.execute(q)] followed by the fetch of its rows. *)
Definition execute {A} (c : nat) (q : stmt) (answer : database -> result A)
  : M A := fun w =>
  (sqlite_answer (w_dbfile w) answer, emit (EvExecute c q) w).

(** Tables in the order [sqlite_master] lists them. *)
Definition answer_tables (db : database) : result (list pystr) :=
  Ok (map t_name db).

Definition MALFORMED : exn := OperationalError "syntax error".

(** The table a statement names by [f'"{t}"'].  A double quote in [t]
    closes the quoted identifier before the end of the name, and what
    follows it is not the statement the script meant: SQLite raises (a
    syntax error or an unrecognized token, as the rest of the name has
    it).  Names made for the rest to parse are not told apart: they
    raise here as well. *)
Definition named (t : pystr) (db : database) : result (option table) :=
  if bool_decide (DQUOTE ∈ t)
  then Raise MALFORMED
  else Ok (find_table db t).

(** Name and declared type of each column; no row for an unknown table. *)
Definition answer_table_info (t : pystr) (db : database)
  : result (list (pystr * pystr)) :=
  rbind (named t db) (fun found =>
    Ok (match found with
        | Some tb => map (fun c => (c_name c, c_type c)) (t_columns tb)
        | None => []
        end)).

Definition answer_count (t : pystr) (db : database) : result nat :=
  rbind (named t db) (fun found =>
    match found with
    | Some tb => Ok (row_count tb)
    | None => Raise (OperationalError "no such table")
    end).

Definition answer_select_all (t : pystr) (db : database) : result DataFrame :=
  rbind (named t db) (fun found =>
    match found with
    | Some tb => Ok (frame_of tb)
    | None => Raise (OperationalError "no such table")
    end).

Section Script.

Context (L : Libs).

(** [df.to_csv(p, index=False, encoding='utf-8')]: pandas refuses a
    path whose parent is not a directory, and the operating system may
    refuse the name of the file. *)
Definition to_csv (df : DataFrame) (p : path) : M unit := fun w =>
  match parent p with
  | Some dir =>
      if bool_decide (dir ∈ w_dirs w)
      then match os_refuses L (file_name p) with
           | None => (Ok tt, wrote_csv p df w)
           | Some e => (Raise e, w)
           end
      else (Raise NO_DIRECTORY, w)
  | None => (Raise NO_DIRECTORY, w)
  end.

Definition answer_select (q : stmt) (db : database) : result DataFrame :=
  match q with
  | SelectAll t => answer_select_all t db
  | _ => sqlite_select L db q
  end.

(** [pd.read_sql_query(q, conn)]: a failure of SQLite comes out as the
    [DatabaseError] of pandas. *)
Definition read_sql_query (q : stmt) (c : nat) : M DataFrame := fun w =>
  (match sqlite_answer (w_dbfile w) (answer_select q) with
   | Ok df => Ok df
   | Raise e => Raise (ExecutionFailed e)
   end,
   emit (EvExecute c q) w).

(** [datetime.now().strftime('%Y%m%d_%H%M%S')] *)
Definition now_stamp : M pystr := fun w =>
  (Ok (strftime_now L (w_clock w)), ticked w).

Definition set_LOG_FILE (p : path) : M unit := fun w => (Ok tt, with_LOG_FILE p w).

(** ** The script *)

(** Lines 14-16: the globals. *)
Definition module_init : M unit :=
  mkdir LOG_DIR ;;
  ts <- now_stamp ;;
  set_LOG_FILE (Join LOG_DIR (py "AAD_analysis_" ++ ts ++ py ".log")).

Definition banner (title : string) : M unit :=
  log_output [Rule "=" 60] ;;
  log_output [Lit title] ;;
  log_output [Rule "=" 60].

Definition inspect_database : M unit :=
  call Inspect ;;
  banner "INSPECTING DATABASE STRUCTURE" ;;
  conn <- connect ;;
  tables <- execute conn ListTables answer_tables ;;
  log_output [NL; Lit "Found "; Num (length tables); Lit " table(s):"; NL] ;;
  for_each tables (fun table_name =>
    log_output [Lit "Table: "; Str table_name] ;;
    log_output [Rule "-" 40] ;;
    columns <- execute conn (TableInfo table_name) (answer_table_info table_name) ;;
    for_each columns (fun col =>
      log_output [Lit "  "; Padded col.1 30; Lit " "; Padded col.2 10]) ;;
    row_count <- execute conn (CountRows table_name) (answer_count table_name) ;;
    log_output [NL; Lit "  Total rows: "; Num row_count; NL]) ;;
  close conn.

(** Lines 79-85, one turn of the loop of [load_data]. *)
Definition load_table (conn : nat) (table_name : pystr)
    (dataframes : gmap pystr DataFrame) : M (gmap pystr DataFrame) :=
  df <- read_sql_query (SelectAll table_name) conn ;;
  log_output [NL; Lit "Table: "; Str table_name] ;;
  log_output [Lit "Shape: "; Shape (df_shape df)] ;;
  log_output [Lit "Columns: "; Names (df_columns df); NL] ;;
  log_output [Frame (df_head 3 df) true] ;;
  log_output [] ;;
  ret (<[table_name := df]> dataframes).

Definition load_data : M (gmap pystr DataFrame) :=
  call Load ;;
  banner "LOADING DATA INTO PANDAS" ;;
  conn <- connect ;;
  tables <- execute conn ListTables answer_tables ;;
  dataframes <- for_fold tables ∅ (load_table conn) ;;
  close conn ;;
  ret dataframes.

Definition AAD_TABLE : pystr := py "Automotive Security Attacks".

Definition QUERY_SAMPLE : stmt := SelectLimit AAD_TABLE 5.
Definition QUERY_BY_YEAR : stmt :=
  CountGroupBy AAD_TABLE (py "Year") ByKey None.
Definition QUERY_BY_TYPE : stmt :=
  CountGroupBy AAD_TABLE (py "Attack Type") ByCountDesc (Some 10).
Definition QUERY_BY_PROPERTY : stmt :=
  CountGroupBy AAD_TABLE (py "Violated Security Property") ByCountDesc (Some 10).

(** Lines 100-136, the body of the [try]. *)
Definition example_queries_body (conn : nat) : M unit :=
  df <- read_sql_query QUERY_SAMPLE conn ;;
  log_output [NL; Lit "First 5 attacks:"] ;;
  log_output [Frame df true] ;;
  log_output [NL; Rule "=" 60] ;;
  log_output [Lit "Attacks by Year:"] ;;
  log_output [Rule "=" 60] ;;
  df_by_year <- read_sql_query QUERY_BY_YEAR conn ;;
  year <- lift (df_getitem df_by_year (py "Year")) ;;
  year <- lift (str_extract_year L year) ;;
  df_by_year_grouped <-
    lift (groupby_year_sum L (df_setitem df_by_year (py "Year") year)) ;;
  log_output [Frame df_by_year_grouped false] ;;
  log_output [NL; Rule "=" 60] ;;
  log_output [Lit "Top 10 Attack Types:"] ;;
  log_output [Rule "=" 60] ;;
  df_types <- read_sql_query QUERY_BY_TYPE conn ;;
  log_output [Frame df_types true] ;;
  log_output [NL; Rule "=" 60] ;;
  log_output [Lit "Security Properties Violated:"] ;;
  log_output [Rule "=" 60] ;;
  df_props <- read_sql_query QUERY_BY_PROPERTY conn ;;
  log_output [Frame df_props true].

Definition query_error (e : exn) : message := [Lit "Query error: "; Exc e].

Definition example_queries : M unit :=
  call Queries ;;
  banner "EXAMPLE QUERIES" ;;
  conn <- connect ;;
  try_except (example_queries_body conn)
             (fun e => log_output (query_error e)) ;;
  close conn.

(** [f"AAD_{table_name.replace(' ', '_')}_{stamp}.csv"] *)
Definition csv_filename (table_name stamp : pystr) : pystr :=
  py "AAD_" ++ replace SPACE UNDERSCORE table_name ++ py "_" ++ stamp ++ py ".csv".

(** Lines 163-181, one turn of the export loop. *)
Definition export_table (conn : nat) (table_name : pystr) : M unit :=
  df <- read_sql_query (SelectAll table_name) conn ;;
  df <- lift (clean_frame df) ;;
  stamp <- now_stamp ;;
  let csv_path := Join OUTPUT_DIR (csv_filename table_name stamp) in
  to_csv df csv_path ;;
  log_output [NL; Lit "Exported: "; Str table_name] ;;
  log_output [Lit "  Rows: "; Num (df_len df)] ;;
  log_output [Lit "  Columns: "; Num (length (df_columns df))] ;;
  log_output [Lit "  File: "; PathOf csv_path].

(** Lines 157-184, the body of the [try]. *)
Definition export_body (conn : nat) : M unit :=
  tables <- execute conn ListTables answer_tables ;;
  for_each tables (export_table conn) ;;
  log_output [NL; Lit "All exports complete! Files saved to: "; PathOf OUTPUT_DIR] ;;
  print [NL; Lit "CSV export complete! Files saved to: "; PathOf OUTPUT_DIR].

Definition export_error (e : exn) : message := [Lit "Export error: "; Exc e].

Definition export_to_csv : M unit :=
  call Export ;;
  banner "EXPORTING DATA TO CSV" ;;
  mkdir OUTPUT_DIR ;;
  conn <- connect ;;
  try_except (export_body conn)
             (fun e => log_output (export_error e) ;; print (export_error e)) ;;
  close conn.

Definition get_LOG_FILE : M path := fun w => (Ok (w_LOG_FILE w), w).

Definition NOT_FOUND : message := [Lit "ERROR: Database file not found!"].

(** Lines 193-205. *)
Definition main : M unit :=
  print [NL; Lit "Database path: "; PathOf DB_PATH] ;;
  found <- db_exists ;;
  print [Lit "Database exists: "; Bool found] ;;
  log_file <- get_LOG_FILE ;;
  print [Lit "Log file: "; PathOf log_file; NL] ;;
  found <- db_exists ;;
  if found then
    inspect_database ;;
    dataframes <- load_data ;;
    example_queries ;;
    export_to_csv ;;
    print [NL; Lit "Analysis complete! Results saved to: "; PathOf log_file]
  else
    print NOT_FOUND.

(** One invocation of the script. *)
Definition script : M unit := module_init ;; main.

End Script.

(** ** A stand-in for the libraries, to run the script on examples *)

Module Toy.

(** One row per distinct value of the column with the number of its
    occurrences, in order of first appearance.  (ORDER BY and LIMIT are
    left out.) *)
Fixpoint tally (vs : list cell) (acc : list (cell * nat)) : list (cell * nat) :=
  match vs with
  | [] => acc
  | v :: rest =>
      tally rest
        (if existsb (fun p => bool_decide (p.1 = v)) acc
         then map (fun p => if bool_decide (p.1 = v) then (p.1, S p.2) else p) acc
         else acc ++ [(v, 1)])
  end.

Definition count_frame (col : pystr) (groups : list (cell * nat)) : DataFrame :=
  [(col, mkSeries dt_object (map fst groups));
   (py "Count", mkSeries dt_int64 (map (fun p => VInt (Z.of_nat p.2)) groups))].

Definition select (db : database) (q : stmt) : result DataFrame :=
  match q with
  | SelectLimit t n =>
      match find_table db t with
      | Some tb => Ok (df_head n (frame_of tb))
      | None => Raise (OperationalError "no such table")
      end
  | CountGroupBy t col _ _ =>
      match find_table db t with
      | Some tb =>
          match df_getitem (frame_of tb) col with
          | Ok s => Ok (count_frame col (tally (s_values s) []))
          | Raise _ => Raise (OperationalError "no such column")
          end
      | None => Raise (OperationalError "no such table")
      end
  | _ => Raise (OperationalError "not a query of the script")
  end.

Definition is_digit (c : pychar) : bool := ((48 <=? c) && (c <=? 57))%N.

(** The first four digits in a row, if any. *)
Fixpoint first_year (s : pystr) : option pystr :=
  match s with
  | [] => None
  | _ :: rest =>
      if bool_decide (length (take 4 s) = 4) && forallb is_digit (take 4 s)
      then Some (take 4 s)
      else first_year rest
  end.

Definition extract_year (s : Series) : result Series :=
  match str_method "extract" (fun x => x) s with
  | Ok _ =>
      Ok (mkSeries dt_object
            (map (fun c => match c with
                           | VText x => from_option VText VNull (first_year x)
                           | _ => VNull
                           end) (s_values s)))
  | Raise e => Raise e
  end.

(** The frame is returned as it is: years are not merged. *)
Definition group_years (df : DataFrame) : result DataFrame := Ok df.

(** A clock that stands still. *)
Definition stamp (n : nat) : pystr := py "20250101_120000".

(** An operating system that takes every name. *)
Definition libs : Libs :=
  mkLibs select extract_year group_years stamp (fun _ => None).

Definition text (l : list pystr) : Series := mkSeries dt_object (map VText l).
Definition ints (l : list Z) : Series := mkSeries dt_int64 (map VInt l).

Definition attacks : table :=
  mkTable (py "Automotive Security Attacks")
    [ mkColumn (py "ID") (py "INTEGER") (ints [1; 2; 3]%Z);
      mkColumn (py "Year") (py "TEXT")
        (text [py "2015"; py "2016 (est.)"; py "2015"]);
      mkColumn (py "Attack Type") (py "TEXT")
        (text [py " Replay"; [74; 97; 109; 10; 109; 105; 110; 103]%N; py "Replay "]);
      mkColumn (py "Violated Security Property") (py "TEXT")
        (text [py "Integrity"; py "Availability"; py "Integrity"]) ].

Definition notes : table :=
  mkTable (py "Notes")
    [ mkColumn (py "Rank") (py "") (mkSeries dt_object [VInt 5; VText (py "high")]) ].

Definition db : database := [attacks; notes].

(** A database without the table of the example queries, whose only
    column holds bytes. *)
Definition blobs : database :=
  [ mkTable (py "Blobs")
      [ mkColumn (py "data") (py "BLOB") (mkSeries dt_object [VBlob [1%N; 2%N]]) ] ].

(** A database whose second table cannot be cleaned. *)
Definition mixed : database := notes :: blobs ++ [attacks].


(** The state of things before the script starts. *)
Definition start (f : dbfile) : world :=
  mkWorld f 0 0 [] (Join LOG_DIR []) None [] [] [].

End Toy.

(** ** Vocabulary of the properties *)

(** What the export makes of a text: line breaks become spaces, then the
    white space at both ends goes. *)
Definition clean_text (x : pystr) : pystr :=
  strip (replace CR SPACE (replace LF SPACE x)).

(** What the export makes of a value of a column of object dtype. *)
Definition clean_cell (c : cell) : cell :=
  match c with
  | VText x => VText (clean_text x)
  | _ => VNull
  end.

(** What the export makes of a column, and of a frame. *)
Definition clean_column (s : Series) : Series :=
  if decide (s_dtype s = dt_object)
  then mkSeries dt_object (map clean_cell (s_values s))
  else s.

Definition cleaned (df : DataFrame) : DataFrame :=
  map (fun p => (p.1, clean_column p.2)) df.

(** The characters of a value, when it is a text. *)
Definition cell_chars (c : cell) : pystr :=
  match c with
  | VText x => x
  | _ => []
  end.

(** A value holds no line break. *)
Definition no_linebreak (c : cell) : Prop :=
  (LF ∉ cell_chars c) ∧ (CR ∉ cell_chars c).

(** A text has no white space at either end. *)
Definition trimmed (x : pystr) : Prop :=
  match x with
  | [] => True
  | c :: _ => isspace c = false ∧ ∃ d, last x = Some d ∧ isspace d = false
  end.

Definition labelled (col : pystr) (p : pystr * Series) : bool :=
  bool_decide (p.1 = col).

(** The lines of the log file; none when there is no file. *)
Definition log_lines (w : world) : list message := default [] (w_log w).

(** The lines [load_data] writes for one table. *)
Definition load_report (t : pystr) (df : DataFrame) : list message :=
  [ [NL; Lit "Table: "; Str t];
    [Lit "Shape: "; Shape (df_shape df)];
    [Lit "Columns: "; Names (df_columns df); NL];
    [Frame (df_head 3 df) true];
    [] ].

(** The frame of the table of that name. *)
Definition table_frame (db : database) (t : pystr) : DataFrame :=
  from_option frame_of [] (find_table db t).

(** The lines a banner takes. *)
Definition banner_lines (title : string) : list message :=
  [[Rule "=" 60]; [Lit title]; [Rule "=" 60]].

(** The four statements of the example queries, in order. *)
Definition EXAMPLE_QUERIES : list stmt :=
  [QUERY_SAMPLE; QUERY_BY_YEAR; QUERY_BY_TYPE; QUERY_BY_PROPERTY].



(** The file the export writes for table [t] when the clock is at its
    [n]-th reading: its path and its content. *)
Definition export_file (L : Libs) (db : database) (t : pystr) (n : nat)
  : path * DataFrame :=
  (Join OUTPUT_DIR (csv_filename t (strftime_now L n)),
   cleaned (table_frame db t)).

(** The files written for the tables [names], one after the other. *)
Fixpoint export_files (L : Libs) (db : database) (n : nat) (names : list pystr)
  : list (path * DataFrame) :=
  match names with
  | [] => []
  | t :: rest => export_file L db t n :: export_files L db (S n) rest
  end.

(** No table has a double quote in its name: every statement that
    names a table is the statement the script meant. *)
Definition plain_names (db : database) : Prop :=
  ∀ t, t ∈ map t_name db → DQUOTE ∉ t.

(** The stamps of the clock are fifteen characters, none a slash, as
    [%Y%m%d_%H%M%S] gives them. *)
Definition plain_stamps (L : Libs) : Prop :=
  ∀ n, length (strftime_now L n) = 15 ∧ (SLASH ∉ strftime_now L n).

(** Nothing stops the export of the tables [names]: they are tables of
    the database, no name holds a double quote or a slash, the operating
    system takes the names of their files, and the clean-up raises for
    none of them. *)
Definition ready (L : Libs) (db : database) (names : list pystr) : Prop :=
  ∀ t, t ∈ names →
    t ∈ map t_name db
    ∧ (DQUOTE ∉ t) ∧ (SLASH ∉ t)
    ∧ (∀ n, os_refuses L (csv_filename t (strftime_now L n)) = None)
    ∧ ∃ df, clean_frame (table_frame db t) = Ok df.

(** Nothing stops the export of a table of the database. *)
Definition exportable (L : Libs) (db : database) : Prop :=
  ready L db (map t_name db).


(** The value in row [j] of the [i]-th column of a frame. *)
Definition cell_at (df : DataFrame) (i j : nat) : option cell :=
  match df !! i with
  | Some p => s_values p.2 !! j
  | None => None
  end.



(** The stages entered, in order. *)
Definition stage_calls (tr : list event) : list stage :=
  omap (λ e, match e with EvCall s => Some s | _ => None end) tr.


(** The global LOG_FILE of a run that starts in [w]. *)
Definition LOG_FILE_of (L : Libs) (w : world) : path :=
  Join LOG_DIR (py "AAD_analysis_" ++ strftime_now L (w_clock w) ++ py ".log").

(** The three lines every run prints first. *)
Definition greeting (L : Libs) (w : world) (found : bool) : list message :=
  [ [NL; Lit "Database path: "; PathOf DB_PATH];
    [Lit "Database exists: "; Bool found];
    [Lit "Log file: "; PathOf (LOG_FILE_of L w); NL] ].

(** The world once the globals are set and the greeting is printed. *)
Definition greeted (L : Libs) (w : world) (found : bool) : world :=
  printed [Lit "Log file: "; PathOf (LOG_FILE_of L w); NL]
    (printed [Lit "Database exists: "; Bool found]
       (printed [NL; Lit "Database path: "; PathOf DB_PATH]
          (with_LOG_FILE (LOG_FILE_of L w) (ticked (made_dir LOG_DIR w))))).

Definition COMPLETE (L : Libs) (w : world) : message :=
  [NL; Lit "Analysis complete! Results saved to: "; PathOf (LOG_FILE_of L w)].

(** A value the export leaves as it is: any value of a column that is
    not of object dtype, and a text with no line break and no white
    space at its ends. *)
Definition kept (s : Series) (v : cell) : Prop :=
  s_dtype s ≠ dt_object
  ∨ ∃ x, v = VText x ∧ (LF ∉ x) ∧ (CR ∉ x) ∧ trimmed x.

(** What a stage leaves in the trace when it runs to its end: it is
    entered, opens connection [c], executes the statements [qs] on it
    and closes it. *)
Definition segment (s : stage) (c : nat) (qs : list stmt) : list event :=
  EvCall s :: EvConnect c :: map (EvExecute c) qs ++ [EvClose c].

(** A computation that opens and closes nothing: all it does to the
    database is to execute statements on connection [c].  It may raise. *)
Definition runs_on (c : nat) {A} (m : M A) : Prop :=
  ∀ w, ∃ qs,
    w_trace (m w).2 = w_trace w ++ map (EvExecute c) qs
    ∧ w_dbfile (m w).2 = w_dbfile w
    ∧ w_conns (m w).2 = w_conns w.

(** A computation that sends the statements [qs] on connection [c], in
    order, up to the point where it raises. *)
Definition sends (c : nat) (qs : list stmt) {A} (m : M A) : Prop :=
  ∀ w, ∃ done,
    done `prefix_of` qs
    ∧ w_trace (m w).2 = w_trace w ++ map (EvExecute c) done
    ∧ ∀ a, (m w).1 = Ok a → done = qs.

(** The rest of a stage once its connection [c] is open: statements on
    [c], then [c] is closed, unless an exception escapes before. *)
Definition closes (c : nat) {A} (m : M A) : Prop :=
  ∀ w, ∃ qs,
    w_trace (m w).2
    = w_trace w ++ map (EvExecute c) qs
      ++ match (m w).1 with Ok _ => [EvClose c] | Raise _ => [] end
    ∧ w_dbfile (m w).2 = w_dbfile w
    ∧ w_conns (m w).2 = w_conns w.

(** The world in which the connection of a stage has just been opened. *)
Definition opened (s : stage) (title : string) (w : world) : world :=
  ((call s ;; banner title ;; connect) w).2.

Definition opened_export (w : world) : world :=
  ((call Export ;; banner "EXPORTING DATA TO CSV" ;; mkdir OUTPUT_DIR ;; connect) w).2.

(** On the database [db] the computation raises nothing and returns a
    value that satisfies [Q]. *)
Definition yields (db : database) {A} (m : M A) (Q : A → Prop) : Prop :=
  ∀ w, w_dbfile w = Sqlite db → ∃ a, (m w).1 = Ok a ∧ Q a.

(** *** Vocabulary of the further properties *)

(** White space only. *)
Definition blank (s : pystr) : Prop := Forall (λ c, isspace c = true) s.

(** A Series the [.str] methods of the clean-up accept when it is of
    object dtype: a text is among its values, or it holds nothing but
    missing values. *)
Definition cleanable (s : Series) : Prop :=
  s_dtype s = dt_object →
  existsb is_text (s_values s) || forallb is_null (s_values s) = true.

(** The dtypes of the columns of a frame. *)
Definition df_dtypes (df : DataFrame) : list dtype := map (λ p, s_dtype p.2) df.

(** The number of values in each column of a frame. *)
Definition df_heights (df : DataFrame) : list nat :=
  map (λ p, length (s_values p.2)) df.

(** A computation that, of the files and the console, touches the log
    only: it prints nothing, writes no CSV file, makes no directory,
    does not read the clock and leaves the global LOG_FILE alone. *)
Definition logs_only {A} (m : M A) : Prop :=
  ∀ w,
    w_console (m w).2 = w_console w
    ∧ w_csv (m w).2 = w_csv w
    ∧ w_dirs (m w).2 = w_dirs w
    ∧ w_clock (m w).2 = w_clock w
    ∧ w_LOG_FILE (m w).2 = w_LOG_FILE w.

(** On the database [db] the computation raises nothing, returns [a],
    adds the events [evs] to the trace and the lines [ls] to the log. *)
Definition does (db : database) {A} (m : M A) (a : A)
    (evs : list event) (ls : list message) : Prop :=
  ∀ w, w_dbfile w = Sqlite db →
    ∃ w', m w = (Ok a, w')
          ∧ w_trace w' = w_trace w ++ evs
          ∧ log_lines w' = log_lines w ++ ls
          ∧ w_dbfile w' = Sqlite db.

(** Name and declared type of the columns of the table named [t]. *)
Definition table_schema (db : database) (t : pystr) : list (pystr * pystr) :=
  match find_table db t with
  | Some tb => map (fun c => (c_name c, c_type c)) (t_columns tb)
  | None => []
  end.

(** The number of rows of the table named [t]. *)
Definition table_rows (db : database) (t : pystr) : nat :=
  from_option row_count 0 (find_table db t).

(** The lines the schema inspection writes for one table. *)
Definition inspect_report (db : database) (t : pystr) : list message :=
  [ [Lit "Table: "; Str t]; [Rule "-" 40] ]
  ++ map (λ col, [Lit "  "; Padded col.1 30; Lit " "; Padded col.2 10])
         (table_schema db t)
  ++ [ [NL; Lit "  Total rows: "; Num (table_rows db t); NL] ].

(** The statements the schema inspection sends. *)
Definition inspect_statements (names : list pystr) : list stmt :=
  ListTables :: concat (map (λ t, [TableInfo t; CountRows t]) names).

(** The lines the export writes for table [t] when the clock is at its
    [n]-th reading. *)
Definition export_report (L : Libs) (db : database) (t : pystr) (n : nat)
  : list message :=
  [ [NL; Lit "Exported: "; Str t];
    [Lit "  Rows: "; Num (df_len (cleaned (table_frame db t)))];
    [Lit "  Columns: "; Num (length (df_columns (cleaned (table_frame db t))))];
    [Lit "  File: "; PathOf (Join OUTPUT_DIR (csv_filename t (strftime_now L n)))] ].

Fixpoint export_reports (L : Libs) (db : database) (n : nat) (names : list pystr)
  : list message :=
  match names with
  | [] => []
  | t :: rest => export_report L db t n ++ export_reports L db (S n) rest
  end.

(** * Properties *)

(** ** What each step leaves of the world *)

Section Fields.

Context (w : world).

Lemma dbfile_emit e : w_dbfile (emit e w) = w_dbfile w.
Proof. reflexivity. Qed.
Lemma clock_emit e : w_clock (emit e w) = w_clock w.
Proof. reflexivity. Qed.
Lemma conns_emit e : w_conns (emit e w) = w_conns w.
Proof. reflexivity. Qed.
Lemma trace_emit e : w_trace (emit e w) = w_trace w ++ [e].
Proof. reflexivity. Qed.
Lemma LOG_FILE_emit e : w_LOG_FILE (emit e w) = w_LOG_FILE w.
Proof. reflexivity. Qed.
Lemma log_lines_emit e : log_lines (emit e w) = log_lines w.
Proof. reflexivity. Qed.
Lemma console_emit e : w_console (emit e w) = w_console w.
Proof. reflexivity. Qed.
Lemma dirs_emit e : w_dirs (emit e w) = w_dirs w.
Proof. reflexivity. Qed.
Lemma csv_emit e : w_csv (emit e w) = w_csv w.
Proof. reflexivity. Qed.

Lemma dbfile_logged m : w_dbfile (logged m w) = w_dbfile w.
Proof. reflexivity. Qed.
Lemma clock_logged m : w_clock (logged m w) = w_clock w.
Proof. reflexivity. Qed.
Lemma conns_logged m : w_conns (logged m w) = w_conns w.
Proof. reflexivity. Qed.
Lemma trace_logged m : w_trace (logged m w) = w_trace w.
Proof. reflexivity. Qed.
Lemma LOG_FILE_logged m : w_LOG_FILE (logged m w) = w_LOG_FILE w.
Proof. reflexivity. Qed.
Lemma log_lines_logged m : log_lines (logged m w) = log_lines w ++ [m].
Proof. reflexivity. Qed.
Lemma console_logged m : w_console (logged m w) = w_console w.
Proof. reflexivity. Qed.
Lemma dirs_logged m : w_dirs (logged m w) = w_dirs w.
Proof. reflexivity. Qed.
Lemma csv_logged m : w_csv (logged m w) = w_csv w.
Proof. reflexivity. Qed.

Lemma dbfile_printed m : w_dbfile (printed m w) = w_dbfile w.
Proof. reflexivity. Qed.
Lemma clock_printed m : w_clock (printed m w) = w_clock w.
Proof. reflexivity. Qed.
Lemma conns_printed m : w_conns (printed m w) = w_conns w.
Proof. reflexivity. Qed.
Lemma trace_printed m : w_trace (printed m w) = w_trace w.
Proof. reflexivity. Qed.
Lemma LOG_FILE_printed m : w_LOG_FILE (printed m w) = w_LOG_FILE w.
Proof. reflexivity. Qed.
Lemma log_lines_printed m : log_lines (printed m w) = log_lines w.
Proof. reflexivity. Qed.
Lemma console_printed m : w_console (printed m w) = w_console w ++ [m].
Proof. reflexivity. Qed.
Lemma dirs_printed m : w_dirs (printed m w) = w_dirs w.
Proof. reflexivity. Qed.
Lemma csv_printed m : w_csv (printed m w) = w_csv w.
Proof. reflexivity. Qed.

Lemma dbfile_made_dir p : w_dbfile (made_dir p w) = w_dbfile w.
Proof. reflexivity. Qed.
Lemma clock_made_dir p : w_clock (made_dir p w) = w_clock w.
Proof. reflexivity. Qed.
Lemma conns_made_dir p : w_conns (made_dir p w) = w_conns w.
Proof. reflexivity. Qed.
Lemma trace_made_dir p : w_trace (made_dir p w) = w_trace w.
Proof. reflexivity. Qed.
Lemma LOG_FILE_made_dir p : w_LOG_FILE (made_dir p w) = w_LOG_FILE w.
Proof. reflexivity. Qed.
Lemma log_lines_made_dir p : log_lines (made_dir p w) = log_lines w.
Proof. reflexivity. Qed.
Lemma console_made_dir p : w_console (made_dir p w) = w_console w.
Proof. reflexivity. Qed.
Lemma dirs_made_dir p : w_dirs (made_dir p w) = w_dirs w ++ [p].
Proof. reflexivity. Qed.
Lemma csv_made_dir p : w_csv (made_dir p w) = w_csv w.
Proof. reflexivity. Qed.

Lemma dbfile_wrote_csv p df : w_dbfile (wrote_csv p df w) = w_dbfile w.
Proof. reflexivity. Qed.
Lemma clock_wrote_csv p df : w_clock (wrote_csv p df w) = w_clock w.
Proof. reflexivity. Qed.
Lemma conns_wrote_csv p df : w_conns (wrote_csv p df w) = w_conns w.
Proof. reflexivity. Qed.
Lemma trace_wrote_csv p df : w_trace (wrote_csv p df w) = w_trace w.
Proof. reflexivity. Qed.
Lemma LOG_FILE_wrote_csv p df : w_LOG_FILE (wrote_csv p df w) = w_LOG_FILE w.
Proof. reflexivity. Qed.
Lemma log_lines_wrote_csv p df : log_lines (wrote_csv p df w) = log_lines w.
Proof. reflexivity. Qed.
Lemma console_wrote_csv p df : w_console (wrote_csv p df w) = w_console w.
Proof. reflexivity. Qed.
Lemma dirs_wrote_csv p df : w_dirs (wrote_csv p df w) = w_dirs w.
Proof. reflexivity. Qed.
Lemma csv_wrote_csv p df : w_csv (wrote_csv p df w) = w_csv w ++ [(p, df)].
Proof. reflexivity. Qed.

Lemma dbfile_ticked : w_dbfile (ticked w) = w_dbfile w.
Proof. reflexivity. Qed.
Lemma clock_ticked : w_clock (ticked w) = S (w_clock w).
Proof. reflexivity. Qed.
Lemma conns_ticked : w_conns (ticked w) = w_conns w.
Proof. reflexivity. Qed.
Lemma trace_ticked : w_trace (ticked w) = w_trace w.
Proof. reflexivity. Qed.
Lemma LOG_FILE_ticked : w_LOG_FILE (ticked w) = w_LOG_FILE w.
Proof. reflexivity. Qed.
Lemma log_lines_ticked : log_lines (ticked w) = log_lines w.
Proof. reflexivity. Qed.
Lemma console_ticked : w_console (ticked w) = w_console w.
Proof. reflexivity. Qed.
Lemma dirs_ticked : w_dirs (ticked w) = w_dirs w.
Proof. reflexivity. Qed.
Lemma csv_ticked : w_csv (ticked w) = w_csv w.
Proof. reflexivity. Qed.

Lemma clock_connected : w_clock (connected w) = w_clock w.
Proof. reflexivity. Qed.
Lemma conns_connected : w_conns (connected w) = S (w_conns w).
Proof. reflexivity. Qed.
Lemma trace_connected : w_trace (connected w) = w_trace w ++ [EvConnect (w_conns w)].
Proof. reflexivity. Qed.
Lemma LOG_FILE_connected : w_LOG_FILE (connected w) = w_LOG_FILE w.
Proof. reflexivity. Qed.
Lemma log_lines_connected : log_lines (connected w) = log_lines w.
Proof. reflexivity. Qed.
Lemma console_connected : w_console (connected w) = w_console w.
Proof. reflexivity. Qed.
Lemma dirs_connected : w_dirs (connected w) = w_dirs w.
Proof. reflexivity. Qed.
Lemma csv_connected : w_csv (connected w) = w_csv w.
Proof. reflexivity. Qed.

Lemma dbfile_with_LOG_FILE p : w_dbfile (with_LOG_FILE p w) = w_dbfile w.
Proof. reflexivity. Qed.
Lemma clock_with_LOG_FILE p : w_clock (with_LOG_FILE p w) = w_clock w.
Proof. reflexivity. Qed.
Lemma conns_with_LOG_FILE p : w_conns (with_LOG_FILE p w) = w_conns w.
Proof. reflexivity. Qed.
Lemma trace_with_LOG_FILE p : w_trace (with_LOG_FILE p w) = w_trace w.
Proof. reflexivity. Qed.
Lemma LOG_FILE_with_LOG_FILE p : w_LOG_FILE (with_LOG_FILE p w) = p.
Proof. reflexivity. Qed.
Lemma log_lines_with_LOG_FILE p : log_lines (with_LOG_FILE p w) = log_lines w.
Proof. reflexivity. Qed.
Lemma console_with_LOG_FILE p : w_console (with_LOG_FILE p w) = w_console w.
Proof. reflexivity. Qed.
Lemma dirs_with_LOG_FILE p : w_dirs (with_LOG_FILE p w) = w_dirs w.
Proof. reflexivity. Qed.
Lemma csv_with_LOG_FILE p : w_csv (with_LOG_FILE p w) = w_csv w.
Proof. reflexivity. Qed.

Lemma dbfile_connected db :
  w_dbfile w = Sqlite db → w_dbfile (connected w) = Sqlite db.
Proof. simpl. by intros ->. Qed.

End Fields.

Create Rewrite HintDb world.

Hint Rewrite dbfile_emit clock_emit conns_emit trace_emit LOG_FILE_emit log_lines_emit : world.
Hint Rewrite console_emit dirs_emit csv_emit dbfile_logged clock_logged conns_logged : world.
Hint Rewrite trace_logged LOG_FILE_logged log_lines_logged console_logged dirs_logged csv_logged : world.
Hint Rewrite dbfile_printed clock_printed conns_printed trace_printed LOG_FILE_printed log_lines_printed : world.
Hint Rewrite console_printed dirs_printed csv_printed dbfile_made_dir clock_made_dir conns_made_dir : world.
Hint Rewrite trace_made_dir LOG_FILE_made_dir log_lines_made_dir console_made_dir dirs_made_dir csv_made_dir : world.
Hint Rewrite dbfile_wrote_csv clock_wrote_csv conns_wrote_csv trace_wrote_csv LOG_FILE_wrote_csv log_lines_wrote_csv : world.
Hint Rewrite console_wrote_csv dirs_wrote_csv csv_wrote_csv dbfile_ticked clock_ticked conns_ticked : world.
Hint Rewrite trace_ticked LOG_FILE_ticked log_lines_ticked console_ticked dirs_ticked csv_ticked : world.
Hint Rewrite clock_connected conns_connected trace_connected LOG_FILE_connected log_lines_connected console_connected : world.
Hint Rewrite dirs_connected csv_connected dbfile_with_LOG_FILE clock_with_LOG_FILE conns_with_LOG_FILE trace_with_LOG_FILE : world.
Hint Rewrite LOG_FILE_with_LOG_FILE log_lines_with_LOG_FILE console_with_LOG_FILE dirs_with_LOG_FILE csv_with_LOG_FILE : world.

(** The steps of a computation, one at a time. *)
Section Steps.

Context (L : Libs) {B : Type}.

Lemma bind_ret {A} (a : A) (f : A → M B) w : bind (ret a) f w = f a w.
Proof. reflexivity. Qed.

Lemma bind_lift {A} (r : result A) (f : A → M B) w :
  bind (lift r) f w = match r with Ok a => f a w | Raise e => (Raise e, w) end.
Proof. by destruct r. Qed.

Lemma bind_log_output msg (f : unit → M B) w :
  bind (log_output msg) f w = f tt (logged msg w).
Proof. reflexivity. Qed.

Lemma bind_print msg (f : unit → M B) w :
  bind (print msg) f w = f tt (printed msg w).
Proof. reflexivity. Qed.

Lemma bind_mkdir p (f : unit → M B) w :
  bind (mkdir p) f w = f tt (made_dir p w).
Proof. reflexivity. Qed.

Lemma bind_to_csv df p dir (f : unit → M B) w :
  parent p = Some dir → dir ∈ w_dirs w → os_refuses L (file_name p) = None →
  bind (to_csv L df p) f w = f tt (wrote_csv p df w).
Proof.
  intros Hp Hd Hos. unfold bind, to_csv. rewrite Hp, Hos.
  by rewrite bool_decide_eq_true_2.
Qed.

Lemma bind_call s (f : unit → M B) w :
  bind (call s) f w = f tt (emit (EvCall s) w).
Proof. reflexivity. Qed.

Lemma bind_connect (f : nat → M B) w :
  bind connect f w = f (w_conns w) (connected w).
Proof. reflexivity. Qed.

Lemma bind_close c (f : unit → M B) w :
  bind (close c) f w = f tt (emit (EvClose c) w).
Proof. reflexivity. Qed.

Lemma bind_now_stamp (f : pystr → M B) w :
  bind (now_stamp L) f w = f (strftime_now L (w_clock w)) (ticked w).
Proof. reflexivity. Qed.

Lemma bind_set_LOG_FILE p (f : unit → M B) w :
  bind (set_LOG_FILE p) f w = f tt (with_LOG_FILE p w).
Proof. reflexivity. Qed.

Lemma bind_get_LOG_FILE (f : path → M B) w :
  bind get_LOG_FILE f w = f (w_LOG_FILE w) w.
Proof. reflexivity. Qed.

Lemma bind_db_exists (f : bool → M B) w :
  bind db_exists f w
  = f (match w_dbfile w with Missing => false | _ => true end) w.
Proof. reflexivity. Qed.

Lemma bind_banner title (f : unit → M B) w :
  bind (banner title) f w
  = f tt (logged [Rule "=" 60] (logged [Lit title] (logged [Rule "=" 60] w))).
Proof. reflexivity. Qed.

Lemma bind_execute {A} c q (answer : database → result A) (f : A → M B) w :
  bind (execute c q answer) f w
  = match sqlite_answer (w_dbfile w) answer with
    | Ok a => f a (emit (EvExecute c q) w)
    | Raise e => (Raise e, emit (EvExecute c q) w)
    end.
Proof. unfold bind, execute. by destruct (sqlite_answer _ _). Qed.

Lemma bind_read_sql_query q c (f : DataFrame → M B) w :
  bind (read_sql_query L q c) f w
  = match sqlite_answer (w_dbfile w) (answer_select L q) with
    | Ok df => f df (emit (EvExecute c q) w)
    | Raise e => (Raise (ExecutionFailed e), emit (EvExecute c q) w)
    end.
Proof. unfold bind, read_sql_query. by destruct (sqlite_answer _ _). Qed.

End Steps.

(** One step of a straight-line computation. *)
Ltac step :=
  first
    [ rewrite bind_log_output | rewrite bind_print | rewrite bind_mkdir
    | rewrite bind_call | rewrite bind_connect
    | rewrite bind_close | rewrite bind_now_stamp | rewrite bind_set_LOG_FILE
    | rewrite bind_get_LOG_FILE | rewrite bind_db_exists | rewrite bind_banner
    | rewrite bind_ret ].

(** The fields of a world reached by steps. *)
Ltac fields := autorewrite with world.


(** A write either goes through or is refused, and a refused write
    leaves everything as it was. *)
Lemma to_csv_cases L df p w :
  to_csv L df p w = (Ok tt, wrote_csv p df w)
  ∨ ∃ e, to_csv L df p w = (Raise e, w).
Proof.
  unfold to_csv. destruct (parent p) as [dir|]; [|right; by eexists].
  destruct (bool_decide (dir ∈ w_dirs w)); [|right; by eexists].
  destruct (os_refuses L (file_name p)); [right; by eexists|by left].
Qed.

(** ** Texts *)

Lemma replace_removes old new s : old ≠ new → old ∉ replace old new s.
Proof.
  intros Hne Hin. unfold replace in Hin.
  apply list_elem_of_fmap in Hin as (c & Hc & _).
  destruct (N.eqb_spec c old); by subst.
Qed.

Lemma replace_absent old new s : old ∉ s → replace old new s = s.
Proof.
  unfold replace. induction s as [|c s IH]; intros Hs; [done|].
  simpl. apply not_elem_of_cons in Hs as [Hc Hs].
  rewrite (IH Hs). destruct (N.eqb_spec c old); by subst.
Qed.

Lemma replace_keeps_out old new c s :
  c ≠ new → c ∉ s → c ∉ replace old new s.
Proof.
  intros Hne Hs Hin. unfold replace in Hin.
  apply list_elem_of_fmap in Hin as (d & Hd & Hin).
  destruct (N.eqb_spec d old); by subst.
Qed.

Lemma lstrip_subseteq s : lstrip s ⊆ s.
Proof.
  induction s as [|c s IH]; simpl; [done|].
  destruct (isspace c); [|done].
  intros x Hx. right. by apply IH.
Qed.

Lemma rstrip_subseteq s : rstrip s ⊆ s.
Proof.
  unfold rstrip. intros x Hx.
  apply list_elem_of_In in Hx. apply in_rev in Hx.
  apply list_elem_of_In in Hx. apply lstrip_subseteq in Hx.
  apply list_elem_of_In in Hx. apply in_rev in Hx.
  by apply list_elem_of_In.
Qed.

Lemma strip_subseteq s : strip s ⊆ s.
Proof.
  unfold strip. intros x Hx. by apply rstrip_subseteq, lstrip_subseteq.
Qed.

Lemma lstrip_head c s : isspace c = false → lstrip (c :: s) = c :: s.
Proof. intros H. simpl. by rewrite H. Qed.

Lemma strip_trimmed x : trimmed x → strip x = x.
Proof.
  destruct x as [|c x]; [done|].
  intros [Hc (d & Hlast & Hd)]. unfold strip, rstrip.
  apply last_Some in Hlast as [pre Hpre]. rewrite Hpre.
  rewrite rev_app_distr. change (rev [d] ++ rev pre) with (d :: rev pre).
  rewrite (lstrip_head _ _ Hd).
  change (d :: rev pre) with ([d] ++ rev pre).
  rewrite rev_app_distr, rev_involutive. change (rev [d]) with [d].
  rewrite <- Hpre. by apply lstrip_head.
Qed.

Lemma clean_text_no_LF x : LF ∉ clean_text x.
Proof.
  unfold clean_text. intros H. apply strip_subseteq in H. revert H.
  apply replace_keeps_out; [done|]. by apply replace_removes.
Qed.

Lemma clean_text_no_CR x : CR ∉ clean_text x.
Proof.
  unfold clean_text. intros H. apply strip_subseteq in H. revert H.
  by apply replace_removes.
Qed.

Lemma clean_text_id x : LF ∉ x → CR ∉ x → trimmed x → clean_text x = x.
Proof.
  intros HLF HCR Ht. unfold clean_text.
  rewrite (replace_absent LF) by done.
  rewrite (replace_absent CR) by done.
  by apply strip_trimmed.
Qed.

Lemma clean_cell_no_linebreak c : no_linebreak (clean_cell c).
Proof.
  destruct c; simpl; split; simpl;
    first [apply clean_text_no_LF | apply clean_text_no_CR | apply not_elem_of_nil].
Qed.

(** ** The clean-up of a frame *)

Lemma on_text_text_or_null f c :
  is_text (on_text f c) = true ∨ is_null (on_text f c) = true.
Proof. destruct c; auto. Qed.

Lemma on_text_is_text f c : is_text (on_text f c) = is_text c.
Proof. by destruct c. Qed.

Lemma infer_dtype_on_text f vs :
  infer_dtype (map (on_text f) vs) = inf_empty
  ∨ infer_dtype (map (on_text f) vs) = inf_string.
Proof.
  unfold infer_dtype.
  assert (H : forallb is_text
            (List.filter (fun c => negb (is_null c)) (map (on_text f) vs)) = true).
  { induction vs as [|c vs IH]; [done|]. by destruct c. }
  destruct (List.filter _ _); [by left|]. rewrite H. by right.
Qed.

(** Once a string method has been through a column, its values are
    texts and missing values, and the next method keeps it of object
    dtype. *)
Lemma accepted_on_text f vs :
  existsb is_text (map (on_text f) vs) || forallb is_null (map (on_text f) vs)
  = true.
Proof.
  induction vs as [|c vs IH]; [done|]. cbn [map existsb forallb].
  destruct c; cbn [on_text is_text is_null orb andb]; done.
Qed.

Lemma accepted_text_kept f vs :
  existsb is_text (map (on_text f) vs) = existsb is_text vs.
Proof.
  induction vs as [|c vs IH]; [done|]. cbn [map existsb].
  by rewrite on_text_is_text, IH.
Qed.

Lemma str_values_on_text f g vs :
  str_values g (map (on_text f) vs)
  = mkSeries dt_object (map (on_text g) (map (on_text f) vs)).
Proof. unfold str_values. by rewrite accepted_on_text. Qed.

(** A column with a text among its values, or with nothing but missing
    values, is neither of numbers only nor of bytes only. *)
Lemma accepted_infer_dtype vs :
  existsb is_text vs || forallb is_null vs = true →
  infer_dtype vs ≠ inf_numeric ∧ infer_dtype vs ≠ inf_bytes.
Proof.
  intros H. unfold infer_dtype.
  destruct (List.filter (fun c => negb (is_null c)) vs) as [|v present] eqn:Hf;
    [done|].
  apply orb_true_iff in H as [H|H].
  - apply existsb_exists in H as (x & Hx & Htext).
    assert (Hin : In x (v :: present)).
    { rewrite <- Hf. apply filter_In. split; [done|]. by destruct x. }
    assert (Hb : forallb is_blob (v :: present) = false).
    { apply not_true_is_false. intros Hall.
      rewrite forallb_forall in Hall. specialize (Hall x Hin). by destruct x. }
    assert (Hn : forallb is_number (v :: present) = false).
    { apply not_true_is_false. intros Hall.
      rewrite forallb_forall in Hall. specialize (Hall x Hin). by destruct x. }
    rewrite Hb, Hn. by destruct (forallb is_text (v :: present)).
  - assert (Hin : In v (List.filter (fun c => negb (is_null c)) vs))
      by (rewrite Hf; by left).
    apply filter_In in Hin as [Hin Hv].
    rewrite forallb_forall in H. rewrite (H v Hin) in Hv. done.
Qed.

Lemma str_method_ok method f s s' :
  str_method method f s = Ok s' →
  s_dtype s = dt_object ∧ s' = str_values f (s_values s).
Proof.
  unfold str_method. destruct (s_dtype s); [|done..].
  destruct (infer_dtype (s_values s)); intros; by simplify_eq.
Qed.

Lemma str_method_on_text method f g vs :
  str_method method g (mkSeries dt_object (map (on_text f) vs))
  = Ok (mkSeries dt_object (map (on_text g) (map (on_text f) vs))).
Proof.
  unfold str_method. cbn [s_dtype s_values]. rewrite str_values_on_text.
  by destruct (infer_dtype_on_text f vs) as [-> | ->].
Qed.

Lemma str_method_accepts method f s :
  s_dtype s = dt_object →
  existsb is_text (s_values s) || forallb is_null (s_values s) = true →
  str_method method f s = Ok (mkSeries dt_object (map (on_text f) (s_values s))).
Proof.
  intros Hd Ha. destruct (accepted_infer_dtype _ Ha) as [Hn Hb].
  unfold str_method, str_values. rewrite Hd, Ha.
  by destruct (infer_dtype (s_values s)).
Qed.

Lemma clean_cell_on_text c :
  on_text strip (on_text (replace CR SPACE) (on_text (replace LF SPACE) c))
  = clean_cell c.
Proof. by destruct c. Qed.

Lemma clean_cells_on_text vs :
  map (on_text strip)
    (map (on_text (replace CR SPACE)) (map (on_text (replace LF SPACE)) vs))
  = map clean_cell vs.
Proof.
  rewrite <- !list_fmap_compose. apply list_fmap_ext. intros _ c _.
  apply clean_cell_on_text.
Qed.

(** The second [.str] of line 169 is reached on what the first
    [replace] returned: it raises when that came out as float64. *)
Lemma clean_series_ok s s' :
  clean_series s = Ok s' →
  s_dtype s = dt_object
  ∧ existsb is_text (s_values s) || forallb is_null (s_values s) = true
  ∧ s' = mkSeries dt_object (map clean_cell (s_values s)).
Proof.
  unfold clean_series.
  destruct (str_method "replace" (replace LF SPACE) s) as [s1|] eqn:H1; [|done].
  apply str_method_ok in H1 as [Hdt ->]. cbn [rbind].
  destruct (str_method "replace" (replace CR SPACE) _) as [s2|] eqn:H2; [|done].
  apply str_method_ok in H2 as [Hdt2 ->]. cbn [rbind].
  unfold str_values at 1 in Hdt2. cbn [s_dtype] in Hdt2.
  destruct (existsb is_text (s_values s) || forallb is_null (s_values s)) eqn:Ha;
    [|done].
  unfold str_values at 2. rewrite Ha. cbn [s_values].
  rewrite str_values_on_text, str_method_on_text. intros [= <-].
  by rewrite clean_cells_on_text.
Qed.

Lemma clean_series_accepts s :
  s_dtype s = dt_object →
  existsb is_text (s_values s) || forallb is_null (s_values s) = true →
  clean_series s = Ok (mkSeries dt_object (map clean_cell (s_values s))).
Proof.
  intros Hd Ha. unfold clean_series.
  rewrite (str_method_accepts _ _ s Hd Ha). cbn [rbind].
  rewrite str_method_on_text. cbn [rbind]. rewrite str_method_on_text.
  by rewrite clean_cells_on_text.
Qed.

Lemma filter_absent col (l : DataFrame) :
  col ∉ df_columns l → List.filter (labelled col) l = [].
Proof.
  induction l as [|p l IH]; [done|]. simpl. intros H.
  apply not_elem_of_cons in H as [Hp Hl]. unfold labelled at 1.
  rewrite bool_decide_eq_false_2 by done. by apply IH.
Qed.

Lemma filter_nil_absent col (l : DataFrame) :
  List.filter (labelled col) l = [] → col ∉ df_columns l.
Proof.
  induction l as [|p l IH]; simpl; [intros _; apply not_elem_of_nil|].
  unfold labelled at 1. case_bool_decide as Hp; [done|].
  intros Hf. apply not_elem_of_cons. split; [done|]. by apply IH.
Qed.

Lemma df_setitem_absent col s (l : DataFrame) :
  col ∉ df_columns l → df_setitem l col s = l.
Proof.
  induction l as [|p l IH]; [done|]. simpl. intros H.
  apply not_elem_of_cons in H as [Hp Hl].
  rewrite bool_decide_eq_false_2 by done. f_equal. by apply IH.
Qed.

Lemma df_getitem_unique pre col s rest s0 :
  col ∉ df_columns pre →
  df_getitem (pre ++ (col, s) :: rest) col = Ok s0 →
  s0 = s ∧ col ∉ df_columns rest.
Proof.
  intros Hpre. unfold df_getitem.
  change (fun p : pystr * Series => bool_decide (p.1 = col)) with (labelled col).
  rewrite List.filter_app, (filter_absent _ _ Hpre). simpl.
  unfold labelled at 1. simpl. rewrite bool_decide_eq_true_2 by done.
  destruct (List.filter (labelled col) rest) eqn:Hrest; [|done].
  intros [= <-]. split; [done|]. by apply filter_nil_absent.
Qed.

Lemma df_setitem_unique pre col s rest s' :
  col ∉ df_columns pre → col ∉ df_columns rest →
  df_setitem (pre ++ (col, s) :: rest) col s' = pre ++ (col, s') :: rest.
Proof.
  intros Hpre Hrest. unfold df_setitem. rewrite map_app. simpl.
  rewrite bool_decide_eq_true_2 by done.
  f_equal; [by apply df_setitem_absent|]. f_equal. by apply df_setitem_absent.
Qed.

Lemma clean_loop_ok suf : ∀ pre df',
  (∀ n, n ∈ df_columns suf → n ∉ df_columns pre) →
  clean_loop (df_columns suf) (pre ++ suf) = Ok df' →
  df' = pre ++ cleaned suf.
Proof.
  induction suf as [|[col s] suf IH]; intros pre df' Hfresh; simpl.
  - by intros [= <-].
  - assert (Hpre : col ∉ df_columns pre) by (apply Hfresh; left).
    destruct (df_getitem _ col) as [s0|] eqn:Hget; [|done]. simpl.
    apply df_getitem_unique in Hget as [-> Hrest]; [|done].
    assert (Hnext : ∀ s', ∀ n, n ∈ df_columns suf →
              n ∉ df_columns (pre ++ [(col, s')])).
    { intros s' n Hn. unfold df_columns. rewrite map_app.
      apply not_elem_of_app. split; [apply Hfresh; by right|].
      simpl. apply not_elem_of_cons. split; [|apply not_elem_of_nil].
      intros ->. done. }
    unfold clean_column. simpl. destruct (decide (s_dtype s = dt_object)) as [Hdt|Hdt].
    + destruct (clean_series s) as [s'|] eqn:Hs; [|done]. simpl.
      apply clean_series_ok in Hs as (_ & _ & ->).
      rewrite df_setitem_unique by done.
      rewrite (cons_middle _ pre suf), app_assoc. intros H.
      apply IH in H; [|apply Hnext]. by rewrite <- app_assoc in H.
    + rewrite (cons_middle _ pre suf), app_assoc. intros H.
      apply IH in H; [|apply Hnext]. by rewrite <- app_assoc in H.
Qed.

(** The loop of the export, when it raises nothing, does to each column
    what [clean_column] says. *)
Lemma clean_frame_ok df df' : clean_frame df = Ok df' → df' = cleaned df.
Proof.
  intros H. apply (clean_loop_ok df []) in H; [done|].
  intros n _. apply not_elem_of_nil.
Qed.

(** ** Rules for [runs_on] and [yields] *)

Section Rules.

Context (L : Libs) (c : nat).

Lemma runs_on_ret {A} (a : A) : runs_on c (ret a).
Proof. intros w. exists []. simpl. by rewrite app_nil_r. Qed.

Lemma runs_on_lift {A} (r : result A) : runs_on c (lift r).
Proof. intros w. exists []. simpl. by rewrite app_nil_r. Qed.

Lemma runs_on_log_output msg : runs_on c (log_output msg).
Proof. intros w. exists []. simpl. by rewrite app_nil_r. Qed.

Lemma runs_on_print msg : runs_on c (print msg).
Proof. intros w. exists []. simpl. by rewrite app_nil_r. Qed.

Lemma runs_on_mkdir p : runs_on c (mkdir p).
Proof. intros w. exists []. simpl. by rewrite app_nil_r. Qed.

Lemma runs_on_to_csv df p : runs_on c (to_csv L df p).
Proof.
  intros w. exists []. destruct (to_csv_cases L df p w) as [-> | [e ->]];
    cbn [snd map]; fields; by rewrite app_nil_r.
Qed.

Lemma runs_on_now_stamp : runs_on c (now_stamp L).
Proof. intros w. exists []. simpl. by rewrite app_nil_r. Qed.

Lemma runs_on_execute {A} q (answer : database → result A) :
  runs_on c (execute c q answer).
Proof. intros w. by exists [q]. Qed.

Lemma runs_on_read_sql_query q : runs_on c (read_sql_query L q c).
Proof. intros w. by exists [q]. Qed.

Lemma runs_on_bind {A B} (m : M A) (f : A → M B) :
  runs_on c m → (∀ a, runs_on c (f a)) → runs_on c (bind m f).
Proof.
  intros Hm Hf w. unfold bind. destruct (Hm w) as (qs & Ht & Hd & Hc).
  destruct (m w) as [[a|e] w1]; simpl in *.
  - destruct (Hf a w1) as (qs' & Ht' & Hd' & Hc'). exists (qs ++ qs').
    rewrite Ht', Ht, Hd', Hd, Hc', Hc, map_app, app_assoc. done.
  - by exists qs.
Qed.

Lemma runs_on_try_except {A} (m : M A) (h : exn → M A) :
  runs_on c m → (∀ e, runs_on c (h e)) → runs_on c (try_except m h).
Proof.
  intros Hm Hh w. unfold try_except. destruct (Hm w) as (qs & Ht & Hd & Hc).
  destruct (m w) as [[a|e] w1]; simpl in *.
  - by exists qs.
  - destruct (Hh e w1) as (qs' & Ht' & Hd' & Hc'). exists (qs ++ qs').
    rewrite Ht', Ht, Hd', Hd, Hc', Hc, map_app, app_assoc. done.
Qed.

Lemma runs_on_for_each {A} (l : list A) (body : A → M unit) :
  (∀ x, runs_on c (body x)) → runs_on c (for_each l body).
Proof.
  intros Hb. induction l as [|x l IH]; simpl.
  - apply runs_on_ret.
  - apply runs_on_bind; auto.
Qed.

Lemma runs_on_for_fold {A S} (l : list A) (body : A → S → M S) :
  (∀ x s, runs_on c (body x s)) → ∀ s, runs_on c (for_fold l s body).
Proof.
  intros Hb. induction l as [|x l IH]; intros s; simpl.
  - apply runs_on_ret.
  - apply runs_on_bind; auto.
Qed.

Lemma runs_on_banner title : runs_on c (banner title).
Proof.
  unfold banner. repeat (apply runs_on_bind; [|intros ?]);
    apply runs_on_log_output.
Qed.

Context (db : database).

Lemma yields_ret {A} (a : A) (Q : A → Prop) : Q a → yields db (ret a) Q.
Proof. intros HQ w _. by exists a. Qed.

Lemma yields_log_output msg : yields db (log_output msg) (λ _, True).
Proof. intros w _. by exists tt. Qed.

Lemma yields_execute {A} q (answer : database → result A) a (Q : A → Prop) :
  answer db = Ok a → Q a → yields db (execute c q answer) Q.
Proof. intros Ha HQ w Hw. exists a. simpl. by rewrite Hw. Qed.

Lemma yields_bind {A B} (m : M A) (f : A → M B) Q R :
  runs_on c m → yields db m Q → (∀ a, Q a → yields db (f a) R) →
  yields db (bind m f) R.
Proof.
  intros Hr Hm Hf w Hw. unfold bind.
  destruct (Hr w) as (_ & _ & Hd & _). destruct (Hm w Hw) as (a & Ha & HQ).
  destruct (m w) as [r w1]; simpl in *. subst r.
  apply (Hf a HQ). congruence.
Qed.

Lemma yields_for_each {A} (l : list A) (body : A → M unit) :
  (∀ x, runs_on c (body x)) →
  (∀ x, x ∈ l → yields db (body x) (λ _, True)) →
  yields db (for_each l body) (λ _, True).
Proof.
  intros Hr. induction l as [|x l IH]; intros Hb; simpl.
  - by apply yields_ret.
  - eapply yields_bind; [apply Hr| apply Hb; left |].
    intros _ _. apply IH. intros y Hy. apply Hb. by right.
Qed.

Lemma yields_print msg : yields db (print msg) (λ _, True).
Proof. intros w _. by exists tt. Qed.

Lemma yields_close : yields db (close c) (λ _, True).
Proof. intros w _. by exists tt. Qed.

Lemma yields_try_except {A} (m : M A) (h : exn → M A) :
  runs_on c m → (∀ e, yields db (h e) (λ _, True)) →
  yields db (try_except m h) (λ _, True).
Proof.
  intros Hr Hh w Hw. unfold try_except.
  destruct (Hr w) as (_ & _ & Hd & _).
  destruct (m w) as [[a|e] w1]; simpl in *; [by exists a|].
  apply Hh. congruence.
Qed.

Lemma yields_weaken {A} (m : M A) (Q : A → Prop) :
  yields db m Q → yields db m (λ _, True).
Proof. intros Hm w Hw. destruct (Hm w Hw) as (a & Ha & _). by exists a. Qed.

End Rules.

Ltac runs :=
  repeat lazymatch goal with
  | |- runs_on _ (bind _ _) => apply runs_on_bind; [|intros ?]
  | |- runs_on _ (try_except _ _) => apply runs_on_try_except; [|intros ?]
  | |- runs_on _ (for_each _ _) => apply runs_on_for_each; intros ?
  | |- runs_on _ (for_fold _ _ _) => apply runs_on_for_fold; intros ? ?
  | |- runs_on _ (ret _) => apply runs_on_ret
  | |- runs_on _ (lift _) => apply runs_on_lift
  | |- runs_on _ (log_output _) => apply runs_on_log_output
  | |- runs_on _ (print _) => apply runs_on_print
  | |- runs_on _ (mkdir _) => apply runs_on_mkdir
  | |- runs_on _ (to_csv _ _ _) => apply runs_on_to_csv
  | |- runs_on _ (now_stamp _) => apply runs_on_now_stamp
  | |- runs_on _ (execute _ _ _) => apply runs_on_execute
  | |- runs_on _ (read_sql_query _ _ _) => apply runs_on_read_sql_query
  | |- runs_on _ (banner _) => apply runs_on_banner
  | |- runs_on _ (export_table _ _ _) => unfold export_table
  | |- runs_on _ (load_table _ _ _ _) => unfold load_table
  end.

(** ** The shape of a stage *)

Section Stages.

Context (L : Libs).

Lemma closes_close c : closes c (close c).
Proof. intros w. by exists []. Qed.

Lemma closes_bind c {A B} (m : M A) (f : A → M B) :
  runs_on c m → (∀ a, closes c (f a)) → closes c (bind m f).
Proof.
  intros Hm Hf w. unfold bind. destruct (Hm w) as (qs & Ht & Hd & Hc).
  destruct (m w) as [[a|e] w1]; simpl in *.
  - destruct (Hf a w1) as (qs' & Ht' & Hd' & Hc'). exists (qs ++ qs').
    rewrite Ht', Ht, Hd', Hd, Hc', Hc, map_app, !app_assoc. done.
  - exists qs. by rewrite app_nil_r.
Qed.

Lemma closes_then_ret c {A B} (m : M A) (b : B) :
  closes c m → closes c (m ;; ret b).
Proof.
  intros Hm w. unfold bind. destruct (Hm w) as (qs & Ht & Hd & Hc).
  destruct (m w) as [[a|e] w1]; simpl in *; by exists qs.
Qed.

Lemma stage_opened {A} s title (k : nat → M A) w :
  (call s ;; banner title ;; conn <- connect ;; k conn) w
  = k (w_conns w) (opened s title w).
Proof. reflexivity. Qed.

Lemma export_opened {A} (k : nat → M A) w :
  (call Export ;; banner "EXPORTING DATA TO CSV" ;; mkdir OUTPUT_DIR ;;
   conn <- connect ;; k conn) w
  = k (w_conns w) (opened_export w).
Proof. reflexivity. Qed.

Lemma opened_trace s title w :
  w_trace (opened s title w) = w_trace w ++ [EvCall s; EvConnect (w_conns w)].
Proof. simpl. by rewrite <- app_assoc. Qed.

Lemma opened_conns s title w : w_conns (opened s title w) = S (w_conns w).
Proof. reflexivity. Qed.

Lemma opened_dbfile s title w db :
  w_dbfile w = Sqlite db → w_dbfile (opened s title w) = Sqlite db.
Proof. simpl. by intros ->. Qed.

Lemma opened_log_lines s title w :
  log_lines (opened s title w) = log_lines w ++ banner_lines title.
Proof. unfold log_lines. simpl. by rewrite <- !app_assoc. Qed.

Lemma opened_export_trace w :
  w_trace (opened_export w) = w_trace w ++ [EvCall Export; EvConnect (w_conns w)].
Proof. simpl. by rewrite <- app_assoc. Qed.

Lemma opened_export_conns w : w_conns (opened_export w) = S (w_conns w).
Proof. reflexivity. Qed.

Lemma opened_export_dbfile w db :
  w_dbfile w = Sqlite db → w_dbfile (opened_export w) = Sqlite db.
Proof. simpl. by intros ->. Qed.

Lemma rest_segment {A} c (k : M A) db (Q : A → Prop) w :
  closes c k → yields db k Q → w_dbfile w = Sqlite db →
  ∃ qs a w',
    k w = (Ok a, w')
    ∧ Q a
    ∧ w_trace w' = w_trace w ++ map (EvExecute c) qs ++ [EvClose c]
    ∧ w_dbfile w' = Sqlite db
    ∧ w_conns w' = w_conns w.
Proof.
  intros Hc Hy Hw.
  destruct (Hc w) as (qs & Ht & Hd & Hn). destruct (Hy w Hw) as (a & Ha & HQ).
  destruct (k w) as [r w'] eqn:Hk. cbn [fst snd] in Ht, Hd, Hn, Ha. subst r.
  exists qs, a, w'. by rewrite Ht, Hd, Hn.
Qed.

Lemma named_plain t db : DQUOTE ∉ t → named t db = Ok (find_table db t).
Proof. intros H. unfold named. by rewrite bool_decide_eq_false_2. Qed.

Lemma named_quoted t db : DQUOTE ∈ t → named t db = Raise MALFORMED.
Proof. intros H. unfold named. by rewrite bool_decide_eq_true_2. Qed.

Lemma answer_table_info_plain t db :
  DQUOTE ∉ t → answer_table_info t db = Ok (table_schema db t).
Proof. intros H. unfold answer_table_info. by rewrite named_plain. Qed.

Lemma answer_count_found t db tb :
  DQUOTE ∉ t → find_table db t = Some tb → answer_count t db = Ok (row_count tb).
Proof. intros H Htb. unfold answer_count. by rewrite named_plain, Htb. Qed.

Lemma answer_select_all_found t db tb :
  DQUOTE ∉ t → find_table db t = Some tb →
  answer_select_all t db = Ok (frame_of tb).
Proof. intros H Htb. unfold answer_select_all. by rewrite named_plain, Htb. Qed.

Lemma find_table_elem db t :
  t ∈ map t_name db → ∃ tb, find_table db t = Some tb ∧ t_name tb = t.
Proof.
  unfold find_table. induction db as [|tb db IH]; simpl.
  - intros H. by apply elem_of_nil in H.
  - intros H. case_bool_decide as Ht; [by exists tb|].
    apply elem_of_cons in H as [->|H]; [done|]. by apply IH.
Qed.

Lemma inspect_database_segment w db :
  w_dbfile w = Sqlite db → plain_names db →
  ∃ qs w',
    inspect_database w = (Ok tt, w')
    ∧ w_trace w' = w_trace w ++ segment Inspect (w_conns w) qs
    ∧ w_dbfile w' = Sqlite db
    ∧ w_conns w' = S (w_conns w).
Proof.
  intros Hw Hp. unfold inspect_database. rewrite stage_opened.
  match goal with |- context [?k (opened ?s ?t w)] =>
    destruct (rest_segment (w_conns w) k db (λ _, True) (opened s t w))
      as (qs & [] & w' & Hk & _ & Ht & Hd & Hn)
  end.
  - repeat (apply closes_bind; [runs|intros ?]). apply closes_close.
  - eapply yields_bind with (c := w_conns w) (Q := λ ts, ts = map t_name db);
      [runs|eapply yields_execute; reflexivity|]. intros tables ->.
    eapply yields_bind with (c := w_conns w); [runs|apply yields_log_output|]. intros _ _.
    eapply yields_bind with (c := w_conns w); [runs| |intros _ _; apply yields_close].
    eapply yields_for_each with (c := w_conns w); [intros ?; runs|]. intros t Ht.
    pose proof (Hp t Ht) as Hq.
    apply find_table_elem in Ht as (tb & Htb & _).
    eapply yields_bind with (c := w_conns w); [runs|apply yields_log_output|]. intros _ _.
    eapply yields_bind with (c := w_conns w); [runs|apply yields_log_output|]. intros _ _.
    eapply yields_bind with (c := w_conns w) (Q := λ _, True);
      [runs|eapply yields_execute; [by apply answer_table_info_plain|done]|].
    intros cols _.
    eapply yields_bind with (c := w_conns w); [runs| |intros _ _].
    { eapply yields_for_each with (c := w_conns w); [intros ?; runs|]. intros; apply yields_log_output. }
    eapply yields_bind with (c := w_conns w) (Q := λ _, True); [runs| |intros; apply yields_log_output].
    eapply yields_execute; [|done]. by apply (answer_count_found _ _ tb).
  - by apply opened_dbfile.
  - exists qs, w'. rewrite Hk, Ht, Hn, opened_trace, opened_conns.
    unfold segment. by rewrite <- app_assoc.
Qed.

End Stages.

(** ** The report of the schema inspection *)

Section Does.

Context (db : database).

Lemma does_ret {A} (a : A) : does db (ret a) a [] [].
Proof. intros w Hw. exists w. by rewrite !app_nil_r. Qed.

Lemma does_log_output msg : does db (log_output msg) tt [] [msg].
Proof.
  intros w Hw. eexists. split; [reflexivity|]. fields. by rewrite app_nil_r.
Qed.

Lemma does_close c : does db (close c) tt [EvClose c] [].
Proof.
  intros w Hw. eexists. split; [reflexivity|]. fields. by rewrite app_nil_r.
Qed.

Lemma does_execute {A} c q (answer : database → result A) a :
  answer db = Ok a → does db (execute c q answer) a [EvExecute c q] [].
Proof.
  intros Ha w Hw. eexists. split.
  - unfold execute. rewrite Hw. cbn [sqlite_answer]. rewrite Ha. reflexivity.
  - fields. by rewrite app_nil_r.
Qed.

Lemma does_bind {A B} (m : M A) (f : A → M B) a b evs1 evs2 ls1 ls2 :
  does db m a evs1 ls1 → does db (f a) b evs2 ls2 →
  does db (bind m f) b (evs1 ++ evs2) (ls1 ++ ls2).
Proof.
  intros Hm Hf w Hw. destruct (Hm w Hw) as (w1 & H1 & Ht1 & Hl1 & Hd1).
  destruct (Hf w1 Hd1) as (w2 & H2 & Ht2 & Hl2 & Hd2).
  exists w2. unfold bind. rewrite H1, H2. split; [done|].
  by rewrite Ht2, Ht1, Hl2, Hl1, !app_assoc.
Qed.

Lemma does_for_each {A} (l : list A) (body : A → M unit) evs ls :
  (∀ x, x ∈ l → does db (body x) tt (evs x) (ls x)) →
  does db (for_each l body) tt (concat (map evs l)) (concat (map ls l)).
Proof.
  induction l as [|x l IH]; intros Hb; cbn [for_each map concat].
  - apply (does_ret tt).
  - eapply does_bind; [apply Hb; left|]. apply IH. intros y Hy. apply Hb. by right.
Qed.

Lemma does_eq {A} (m : M A) a evs evs' ls ls' :
  does db m a evs ls → evs = evs' → ls = ls' → does db m a evs' ls'.
Proof. by intros H <- <-. Qed.

Lemma concat_map_nil {A B} (l : list A) : concat (map (λ _, @nil B) l) = [].
Proof. induction l as [|x l IH]; [done|]. exact IH. Qed.

Lemma concat_map_singleton {A B} (f : A → B) (l : list A) :
  concat (map (λ x, [f x]) l) = map f l.
Proof. induction l as [|x l IH]; [done|]. simpl. by rewrite IH. Qed.

(** One turn of the loop of the inspection, lines 43-58. *)
Lemma inspect_table_does c t :
  t ∈ map t_name db → DQUOTE ∉ t →
  does db
    (log_output [Lit "Table: "; Str t] ;;
     log_output [Rule "-" 40] ;;
     columns <- execute c (TableInfo t) (answer_table_info t) ;;
     for_each columns (fun col =>
       log_output [Lit "  "; Padded col.1 30; Lit " "; Padded col.2 10]) ;;
     row_count <- execute c (CountRows t) (answer_count t) ;;
     log_output [NL; Lit "  Total rows: "; Num row_count; NL])
    tt
    [EvExecute c (TableInfo t); EvExecute c (CountRows t)]
    (inspect_report db t).
Proof.
  intros Ht Hq. apply find_table_elem in Ht as (tb & Htb & _).
  eapply does_eq.
  - eapply does_bind; [apply does_log_output|].
    eapply does_bind; [apply does_log_output|].
    eapply does_bind; [apply does_execute; by apply answer_table_info_plain|].
    eapply does_bind; [apply does_for_each; intros; apply does_log_output|].
    eapply does_bind; [apply does_execute|apply does_log_output].
    by apply (answer_count_found _ _ tb).
  - by rewrite concat_map_nil.
  - unfold inspect_report, table_rows. rewrite Htb. cbn [from_option].
    rewrite (concat_map_singleton
               (λ col : pystr * pystr,
                  [Lit "  "; Padded col.1 30; Lit " "; Padded col.2 10])).
    reflexivity.
Qed.

(** What the schema inspection writes and sends on a database whose
    names are plain. *)
Lemma inspect_database_ok w :
  w_dbfile w = Sqlite db → plain_names db →
  ∃ w',
    inspect_database w = (Ok tt, w')
    ∧ log_lines w'
      = log_lines w ++ banner_lines "INSPECTING DATABASE STRUCTURE"
        ++ [[NL; Lit "Found "; Num (length db); Lit " table(s):"; NL]]
        ++ concat (map (inspect_report db) (map t_name db))
    ∧ w_trace w'
      = w_trace w
        ++ segment Inspect (w_conns w) (inspect_statements (map t_name db))
    ∧ w_dbfile w' = Sqlite db
    ∧ w_conns w' = S (w_conns w).
Proof.
  intros Hw Hp.
  destruct (inspect_database_segment w db Hw Hp) as (qs & w'' & Hrun' & _ & _ & Hn).
  revert Hrun'. unfold inspect_database. rewrite stage_opened. intros Hrun'.
  pose proof (opened_dbfile Inspect "INSPECTING DATABASE STRUCTURE" w db Hw) as Hd.
  set (c := w_conns w) in *.
  match goal with |- context [?k (opened ?s ?t w)] =>
    assert (Hk : does db k tt
      (map (EvExecute c) (inspect_statements (map t_name db)) ++ [EvClose c])
      ([[NL; Lit "Found "; Num (length db); Lit " table(s):"; NL]]
       ++ concat (map (inspect_report db) (map t_name db))))
  end.
  { eapply does_eq.
    - eapply does_bind; [by apply does_execute|].
      eapply does_bind; [apply does_log_output|].
      eapply does_bind; [|apply does_close].
      apply does_for_each. intros t Ht. apply inspect_table_does; auto.
    - unfold inspect_statements. cbn [map app]. f_equal. f_equal.
      induction (map t_name db) as [|t l IH]; [done|]. simpl. by rewrite IH.
    - rewrite app_nil_l, app_nil_r, length_map. reflexivity. }
  destruct (Hk _ Hd) as (w' & Hrun & Ht & Hl & Hd').
  rewrite Hrun in Hrun'. injection Hrun' as <-.
  exists w'. split; [exact Hrun|].
  rewrite Hl, Ht, opened_log_lines, opened_trace.
  unfold segment. by rewrite <- !app_assoc.
Qed.

End Does.

(** ** Bulk load *)

Section Load.

Context (L : Libs) (db : database).

Lemma load_table_step c t acc w tb :
  w_dbfile w = Sqlite db → DQUOTE ∉ t → find_table db t = Some tb →
  ∃ w', load_table L c t acc w = (Ok (<[t := frame_of tb]> acc), w')
        ∧ log_lines w' = log_lines w ++ load_report t (frame_of tb)
        ∧ w_trace w' = w_trace w ++ [EvExecute c (SelectAll t)]
        ∧ w_dbfile w' = Sqlite db
        ∧ w_conns w' = w_conns w.
Proof.
  intros Hw Hq Htb. eexists. split.
  - unfold load_table. rewrite bind_read_sql_query, Hw.
    cbn [sqlite_answer answer_select].
    rewrite (answer_select_all_found t db tb) by done.
    do 5 step. reflexivity.
  - fields. unfold load_report. by rewrite <- !app_assoc.
Qed.

Lemma load_loop c names : ∀ acc w,
  w_dbfile w = Sqlite db → (∀ t, t ∈ names → t ∈ map t_name db) →
  (∀ t, t ∈ names → DQUOTE ∉ t) →
  ∃ w', for_fold names acc (load_table L c) w
          = (Ok (foldl (λ d t, <[t := table_frame db t]> d) acc names), w')
        ∧ log_lines w'
          = log_lines w ++ concat (map (λ t, load_report t (table_frame db t)) names)
        ∧ w_trace w' = w_trace w ++ map (λ t, EvExecute c (SelectAll t)) names
        ∧ w_dbfile w' = Sqlite db
        ∧ w_conns w' = w_conns w.
Proof.
  induction names as [|t names IH]; intros acc w Hw Hin Hq.
  - exists w. simpl. by rewrite !app_nil_r.
  - destruct (find_table_elem db t) as (tb & Htb & _); [apply Hin; left|].
    destruct (load_table_step c t acc w tb Hw) as (w1 & Hstep & Hlog & Htr & Hw1 & Hc1);
      [apply Hq; left|done|].
    destruct (IH (<[t := frame_of tb]> acc) w1 Hw1)
      as (w' & Hrest & Hlog' & Htr' & Hw' & Hc').
    { intros u Hu. apply Hin. by right. }
    { intros u Hu. apply Hq. by right. }
    assert (Hf : table_frame db t = frame_of tb)
      by (unfold table_frame; by rewrite Htb).
    exists w'. simpl. unfold bind at 1. rewrite Hstep, Hf.
    rewrite Hrest, Hlog', Hlog, Htr', Htr, Hc', Hc1, <- !app_assoc. done.
Qed.




(** What [load_data] returns and leaves behind on a database. *)
Lemma load_data_ok w :
  w_dbfile w = Sqlite db → plain_names db →
  ∃ w',
    load_data L w
    = (Ok (foldl (λ d t, <[t := table_frame db t]> d) ∅ (map t_name db)), w')
    ∧ log_lines w'
      = log_lines w ++ banner_lines "LOADING DATA INTO PANDAS"
        ++ concat (map (λ t, load_report t (table_frame db t)) (map t_name db))
    ∧ w_trace w'
      = w_trace w
        ++ segment Load (w_conns w) (ListTables :: map SelectAll (map t_name db))
    ∧ w_dbfile w' = Sqlite db
    ∧ w_conns w' = S (w_conns w).
Proof.
  intros Hw Hp. unfold load_data. rewrite stage_opened.
  pose proof (opened_dbfile Load "LOADING DATA INTO PANDAS" w db Hw) as Hd.
  set (w0 := opened Load "LOADING DATA INTO PANDAS" w) in *.
  unfold bind at 1, execute. rewrite Hd. cbn [sqlite_answer answer_tables].
  destruct (load_loop (w_conns w) (map t_name db) ∅
              (emit (EvExecute (w_conns w) ListTables) w0))
    as (w1 & Hloop & Hlog & Htr & Hw1 & Hc1); [done|done|exact Hp|].
  unfold bind at 1. rewrite Hloop. eexists. split; [reflexivity|].
  cbn [w_trace w_dbfile w_conns emit close bind ret fst snd].
  change (log_lines (emit (EvClose (w_conns w)) w1)) with (log_lines w1).
  rewrite Hlog, Htr, Hw1, Hc1.
  change (log_lines (emit (EvExecute (w_conns w) ListTables) w0))
    with (log_lines w0).
  cbn [w_trace w_conns emit]. subst w0.
  rewrite opened_log_lines, opened_trace, opened_conns.
  split; [by rewrite <- app_assoc|]. split; [|done].
  unfold segment. rewrite <- !app_assoc. simpl.
  by rewrite (map_map SelectAll (EvExecute (w_conns w))).
Qed.

End Load.

(** ** Example queries *)

Section Queries.

Context (L : Libs).

(** The stage never raises, and always closes its connection. *)
Lemma example_queries_segment w db :
  w_dbfile w = Sqlite db →
  ∃ qs w',
    example_queries L w = (Ok tt, w')
    ∧ w_trace w' = w_trace w ++ segment Queries (w_conns w) qs
    ∧ w_dbfile w' = Sqlite db
    ∧ w_conns w' = S (w_conns w).
Proof.
  intros Hw. unfold example_queries. rewrite stage_opened.
  match goal with |- context [?k (opened ?s ?t w)] =>
    destruct (rest_segment (w_conns w) k db (λ _, True) (opened s t w))
      as (qs & [] & w' & Hk & _ & Ht & Hd & Hn)
  end.
  - apply closes_bind; [unfold example_queries_body; runs|intros ?].
    apply closes_close.
  - eapply yields_bind with (c := w_conns w);
      [unfold example_queries_body; runs| |intros _ _; apply yields_close].
    eapply yields_try_except with (c := w_conns w);
      [unfold example_queries_body; runs|intros; apply yields_log_output].
  - by apply opened_dbfile.
  - exists qs, w'. rewrite Hk, Ht, Hn, opened_trace, opened_conns.
    unfold segment. by rewrite <- app_assoc.
Qed.


Lemma sends_quiet c {A} (m : M A) :
  (∀ w, w_trace (m w).2 = w_trace w) → sends c [] m.
Proof. intros H w. exists []. rewrite H. simpl. by rewrite app_nil_r. Qed.

Lemma sends_read_sql_query c q : sends c [q] (read_sql_query L q c).
Proof. intros w. by exists [q]. Qed.

Lemma sends_bind c {A B} qs1 qs2 (m : M A) (f : A → M B) :
  sends c qs1 m → (∀ a, sends c qs2 (f a)) → sends c (qs1 ++ qs2) (bind m f).
Proof.
  intros Hm Hf w. unfold bind. destruct (Hm w) as (d1 & Hp1 & Ht1 & Hok1).
  destruct (m w) as [[a|e] w1]; cbn [fst snd] in *.
  - destruct (Hf a w1) as (d2 & Hp2 & Ht2 & Hok2). exists (qs1 ++ d2).
    rewrite (Hok1 a eq_refl) in Ht1.
    split; [by apply prefix_app|]. split.
    + rewrite Ht2, Ht1, map_app, app_assoc. done.
    + intros b Hb. by rewrite (Hok2 b Hb).
  - exists d1. split; [by apply prefix_app_r|]. split; [done|]. by intros.
Qed.

Lemma example_queries_body_sends c :
  sends c EXAMPLE_QUERIES (example_queries_body L c).
Proof.
  unfold example_queries_body.
  change EXAMPLE_QUERIES
    with ([QUERY_SAMPLE] ++ [] ++ [] ++ [] ++ [] ++ []
          ++ [QUERY_BY_YEAR] ++ [] ++ [] ++ [] ++ [] ++ [] ++ [] ++ []
          ++ [QUERY_BY_TYPE] ++ [] ++ [] ++ [] ++ []
          ++ [QUERY_BY_PROPERTY] ++ []).
  repeat lazymatch goal with
  | |- sends _ _ (bind _ _) => apply sends_bind; [|intros ?]
  | |- sends _ _ (read_sql_query _ _ _) => apply sends_read_sql_query
  | |- sends _ _ _ => by apply sends_quiet
  end.
Qed.

(** Whatever is raised in the [try], it is caught and logged and the
    connection is closed; the statements sent are the first few of the
    four, in their order. *)
Lemma example_queries_handled w :
  ∃ qs w',
    qs `prefix_of` EXAMPLE_QUERIES
    ∧ example_queries L w = (Ok tt, w')
    ∧ w_trace w' = w_trace w ++ segment Queries (w_conns w) qs
    ∧ ∀ e w1,
        example_queries_body L (w_conns w) (opened Queries "EXAMPLE QUERIES" w)
        = (Raise e, w1) →
        log_lines w' = log_lines w1 ++ [query_error e]
        ∧ w_console w' = w_console w1.
Proof.
  unfold example_queries. rewrite stage_opened.
  pose proof (opened_trace Queries "EXAMPLE QUERIES" w) as Ht0.
  set (c := w_conns w) in *. set (w0 := opened Queries "EXAMPLE QUERIES" w) in *.
  destruct (example_queries_body_sends c w0) as (qs & Hp & Ht & _).
  unfold bind at 1, try_except.
  destruct (example_queries_body L c w0) as [[[]|e] w1]; cbn [snd] in Ht;
    exists qs; eexists; (split; [exact Hp|]); (split; [reflexivity|]).
  - split; [|done]. unfold close. cbn [snd]. fields. rewrite Ht, Ht0.
    unfold segment. by rewrite <- !app_assoc.
  - split.
    + unfold close, log_output. cbn [snd]. fields. rewrite Ht, Ht0.
      unfold segment. by rewrite <- !app_assoc.
    + intros ? ? [= <- <-]. unfold close, log_output. cbn [snd]. by fields.
Qed.

End Queries.

(** ** CSV export *)

Section ExportLoop.

Context (L : Libs) (db : database).

Lemma bind_to_csv_cases {B} df p (f : unit → M B) w :
  bind (to_csv L df p) f w = f tt (wrote_csv p df w)
  ∨ ∃ e, bind (to_csv L df p) f w = (Raise e, w).
Proof.
  unfold bind. destruct (to_csv_cases L df p w) as [-> | [e ->]];
    [by left|right; by eexists].
Qed.

(** One turn of the export loop either writes the file of the table
    and goes on, or raises and writes nothing. *)
Lemma export_table_step c t w :
  w_dbfile w = Sqlite db →
  (∃ w', export_table L c t w = (Ok tt, w')
         ∧ w_csv w' = w_csv w ++ [export_file L db t (w_clock w)]
         ∧ w_clock w' = S (w_clock w)
         ∧ w_console w' = w_console w
         ∧ w_trace w' = w_trace w ++ [EvExecute c (SelectAll t)]
         ∧ w_dbfile w' = Sqlite db)
  ∨ (∃ e w', export_table L c t w = (Raise e, w')
             ∧ w_csv w' = w_csv w
             ∧ w_console w' = w_console w
             ∧ w_trace w' = w_trace w ++ [EvExecute c (SelectAll t)]).
Proof.
  intros Hw. unfold export_table. rewrite bind_read_sql_query, Hw.
  cbn [sqlite_answer answer_select]. unfold answer_select_all, named.
  case_bool_decide as Hq; cbn [rbind].
  { right. eexists _, _. split; [reflexivity|]. by fields. }
  destruct (find_table db t) as [tb|] eqn:Htb.
  2:{ right. eexists _, _. split; [reflexivity|]. by fields. }
  assert (Hf : table_frame db t = frame_of tb)
    by (unfold table_frame; by rewrite Htb).
  rewrite bind_lift.
  destruct (clean_frame (frame_of tb)) as [df|e] eqn:Hclean.
  2:{ right. eexists _, _. split; [reflexivity|]. by fields. }
  apply clean_frame_ok in Hclean as ->. rewrite bind_now_stamp.
  match goal with |- context [bind (to_csv L ?df ?p) ?f ?u] =>
    destruct (bind_to_csv_cases df p f u) as [Hc | [e Hc]]; rewrite Hc; clear Hc
  end.
  - left. eexists. split; [do 3 step; reflexivity|].
    unfold log_output. cbn [snd]. fields. unfold export_file.
    by rewrite Hf, Hw.
  - right. eexists _, _. split; [reflexivity|]. by fields.
Qed.

Lemma export_loop c names : ∀ w,
  w_dbfile w = Sqlite db →
  ∃ ts rs r w',
    for_each names (export_table L c) w = (r, w')
    ∧ ts `prefix_of` names
    ∧ w_csv w' = w_csv w ++ export_files L db (w_clock w) ts
    ∧ w_console w' = w_console w
    ∧ (r = Ok tt → ts = names)
    ∧ rs `prefix_of` names
    ∧ w_trace w' = w_trace w ++ map (λ u, EvExecute c (SelectAll u)) rs.
Proof.
  induction names as [|t names IH]; intros w Hw.
  - exists [], [], (Ok tt), w. simpl. by rewrite !app_nil_r.
  - destruct (export_table_step c t w Hw)
      as [(w1 & Hstep & Hcsv & Hclock & Hcon & Htr & Hw1)
         |(e & w1 & Hstep & Hcsv & Hcon & Htr)].
    + destruct (IH w1 Hw1)
        as (ts & rs & r & w' & Hrest & Hpre & Hcsv' & Hcon' & Hall & Hrs & Htr').
      exists (t :: ts), (t :: rs), r, w'.
      cbn [for_each]. unfold bind at 1. rewrite Hstep.
      split; [done|]. split; [by apply prefix_cons|].
      split; [cbn [export_files]; by rewrite Hcsv', Hcsv, Hclock, <- app_assoc|].
      split; [congruence|]. split; [intros Hr; f_equal; auto|].
      split; [by apply prefix_cons|].
      cbn [map]. by rewrite Htr', Htr, <- app_assoc.
    + exists [], [t], (Raise e), w1.
      cbn [for_each]. unfold bind at 1. rewrite Hstep.
      split; [done|]. split; [apply prefix_nil|].
      split; [cbn [export_files]; by rewrite app_nil_r|].
      split; [done|]. split; [done|].
      split; [|done]. by apply prefix_cons, prefix_nil.
Qed.


Lemma export_files_lookup names : ∀ n k,
  export_files L db n names !! k
  = (λ t, export_file L db t (n + k)) <$> names !! k.
Proof.
  induction names as [|t names IH]; intros n k; [done|].
  destruct k as [|k]; simpl.
  - by rewrite Nat.add_0_r.
  - rewrite IH. by rewrite Nat.add_succ_r.
Qed.

End ExportLoop.

Section ExportStage.

Context (L : Libs).

Lemma export_to_csv_segment w db :
  w_dbfile w = Sqlite db →
  ∃ qs w',
    export_to_csv L w = (Ok tt, w')
    ∧ w_trace w' = w_trace w ++ segment Export (w_conns w) qs
    ∧ w_dbfile w' = Sqlite db
    ∧ w_conns w' = S (w_conns w).
Proof.
  intros Hw. unfold export_to_csv. rewrite export_opened.
  match goal with |- context [?k (opened_export w)] =>
    destruct (rest_segment (w_conns w) k db (λ _, True) (opened_export w))
      as (qs & [] & w' & Hk & _ & Ht & Hd & Hn)
  end.
  - apply closes_bind; [unfold export_body, export_table; runs|intros ?].
    apply closes_close.
  - eapply yields_bind with (c := w_conns w);
      [unfold export_body, export_table; runs| |intros _ _; apply yields_close].
    eapply yields_try_except with (c := w_conns w);
      [unfold export_body, export_table; runs|intros].
    eapply yields_bind with (c := w_conns w);
      [runs|apply yields_log_output|intros; apply yields_print].
  - by apply opened_export_dbfile.
  - exists qs, w'. rewrite Hk, Ht, Hn, opened_export_trace, opened_export_conns.
    unfold segment. by rewrite <- app_assoc.
Qed.

(** The files of an export: those of the tables in the order of their
    enumeration, up to the first table whose clean-up raises. *)
Lemma export_to_csv_files w db :
  w_dbfile w = Sqlite db →
  ∃ ts,
    ts `prefix_of` map t_name db
    ∧ w_csv (export_to_csv L w).2
      = w_csv w ++ export_files L db (w_clock w) ts.
Proof.
  intros Hw. unfold export_to_csv. rewrite export_opened.
  pose proof (opened_export_dbfile w db Hw) as Hd.
  assert (Hcsv : w_csv (opened_export w) = w_csv w) by reflexivity.
  assert (Hclock : w_clock (opened_export w) = w_clock w) by reflexivity.
  set (w0 := opened_export w) in *. set (c := w_conns w).
  unfold bind at 1, try_except, export_body.
  unfold bind at 1, execute. rewrite Hd. cbn [sqlite_answer answer_tables].
  destruct (export_loop L db c (map t_name db) (emit (EvExecute c ListTables) w0))
    as (ts & rs & r & w1 & Hloop & Hpre & Hcsv1 & _); [done|].
  unfold bind at 1. rewrite Hloop. exists ts. split; [done|].
  revert Hcsv1. fields. rewrite Hcsv, Hclock. intros Hcsv1.
  destruct r as [[]|e]; rewrite ?bind_log_output; unfold print, close;
    cbn [snd]; by fields.
Qed.

(** The statements of an export: the enumeration, then [SELECT *] for
    the tables one by one, as far as the export goes. *)
Lemma export_to_csv_sends db w :
  w_dbfile w = Sqlite db →
  ∃ rs w',
    rs `prefix_of` map t_name db
    ∧ export_to_csv L w = (Ok tt, w')
    ∧ w_trace w'
      = w_trace w ++ segment Export (w_conns w) (ListTables :: map SelectAll rs).
Proof.
  intros Hw. unfold export_to_csv. rewrite export_opened.
  pose proof (opened_export_dbfile w db Hw) as Hd.
  pose proof (opened_export_trace w) as Ht0.
  set (w0 := opened_export w) in *. set (c := w_conns w) in *.
  unfold bind at 1, try_except, export_body.
  unfold bind at 1, execute. rewrite Hd. cbn [sqlite_answer answer_tables].
  destruct (export_loop L db c (map t_name db) (emit (EvExecute c ListTables) w0))
    as (ts & rs & r & w1 & Hloop & _ & _ & _ & _ & Hrs & Htr); [done|].
  unfold bind at 1. rewrite Hloop. exists rs.
  revert Htr. fields. rewrite Ht0. intros Htr.
  destruct r as [[]|e]; rewrite ?bind_log_output; unfold print, close;
    eexists; (split; [done|]); (split; [reflexivity|]); fields; rewrite Htr;
    unfold segment; rewrite <- !app_assoc; cbn [map app];
    by rewrite (map_map SelectAll).
Qed.

End ExportStage.

(** ** The export, table by table *)

Section ExportReport.

Context (L : Libs) (db : database).

Lemma literal_without c lit :
  forallb (λ d, negb (d =? c)%N) (py lit) = true → c ∉ py lit.
Proof.
  intros H Hin. rewrite forallb_forall in H.
  apply list_elem_of_In, H in Hin. by rewrite N.eqb_refl in Hin.
Qed.

Lemma csv_filename_no_slash t stamp :
  SLASH ∉ t → SLASH ∉ stamp → SLASH ∉ csv_filename t stamp.
Proof.
  intros Ht Hs. unfold csv_filename. rewrite !elem_of_app.
  intros [H|[H|[H|[H|H]]]].
  - by apply (literal_without SLASH "AAD_").
  - revert H. by apply replace_keeps_out.
  - by apply (literal_without SLASH "_").
  - done.
  - by apply (literal_without SLASH ".csv").
Qed.

Lemma csv_path_parent t stamp :
  SLASH ∉ t → SLASH ∉ stamp →
  parent (Join OUTPUT_DIR (csv_filename t stamp)) = Some OUTPUT_DIR.
Proof.
  intros Ht Hs. unfold parent.
  by rewrite bool_decide_eq_false_2 by by apply csv_filename_no_slash.
Qed.

Lemma export_table_ok c t w tb df :
  w_dbfile w = Sqlite db → find_table db t = Some tb →
  DQUOTE ∉ t → SLASH ∉ t → SLASH ∉ strftime_now L (w_clock w) →
  os_refuses L (csv_filename t (strftime_now L (w_clock w))) = None →
  OUTPUT_DIR ∈ w_dirs w →
  clean_frame (frame_of tb) = Ok df →
  ∃ w',
    export_table L c t w = (Ok tt, w')
    ∧ w_csv w' = w_csv w ++ [export_file L db t (w_clock w)]
    ∧ w_clock w' = S (w_clock w)
    ∧ log_lines w' = log_lines w ++ export_report L db t (w_clock w)
    ∧ w_trace w' = w_trace w ++ [EvExecute c (SelectAll t)]
    ∧ w_console w' = w_console w
    ∧ w_dirs w' = w_dirs w
    ∧ w_dbfile w' = Sqlite db.
Proof.
  intros Hw Htb Hq Hs Hst Hos Hdir Hclean.
  assert (Hf : table_frame db t = frame_of tb)
    by (unfold table_frame; by rewrite Htb).
  apply clean_frame_ok in Hclean as Hdf.
  eexists. split.
  - unfold export_table. rewrite bind_read_sql_query, Hw.
    cbn [sqlite_answer answer_select].
    rewrite (answer_select_all_found t db tb) by done.
    rewrite bind_lift, Hclean, bind_now_stamp. cbv zeta.
    rewrite (bind_to_csv L _ _ OUTPUT_DIR);
      [|by apply csv_path_parent|by fields|done].
    do 3 step. reflexivity.
  - unfold log_output. cbn [snd]. fields.
    unfold export_file, export_report. rewrite Hf, Hdf, Hw.
    by rewrite <- !app_assoc.
Qed.

Lemma export_table_raise c t w tb e :
  w_dbfile w = Sqlite db → find_table db t = Some tb → DQUOTE ∉ t →
  clean_frame (frame_of tb) = Raise e →
  export_table L c t w = (Raise e, emit (EvExecute c (SelectAll t)) w).
Proof.
  intros Hw Htb Hq Hclean.
  unfold export_table. rewrite bind_read_sql_query, Hw.
  cbn [sqlite_answer answer_select].
  rewrite (answer_select_all_found t db tb) by done.
  by rewrite bind_lift, Hclean.
Qed.

Lemma ready_cons t names : ready L db (t :: names) → ready L db names.
Proof. intros H u Hu. apply H. by right. Qed.

Lemma export_loop_exact c names : ∀ w,
  w_dbfile w = Sqlite db → ready L db names → plain_stamps L →
  OUTPUT_DIR ∈ w_dirs w →
  ∃ w',
    for_each names (export_table L c) w = (Ok tt, w')
    ∧ w_csv w' = w_csv w ++ export_files L db (w_clock w) names
    ∧ w_clock w' = w_clock w + length names
    ∧ log_lines w' = log_lines w ++ export_reports L db (w_clock w) names
    ∧ w_trace w' = w_trace w ++ map (λ t, EvExecute c (SelectAll t)) names
    ∧ w_console w' = w_console w
    ∧ w_dirs w' = w_dirs w
    ∧ w_dbfile w' = Sqlite db.
Proof.
  induction names as [|t names IH]; intros w Hw Hready Hst Hdir.
  - exists w. cbn [for_each ret export_files export_reports map length].
    by rewrite !app_nil_r, Nat.add_0_r.
  - destruct (Hready t) as (Hin & Hq & Hs & Hos & df & Hdf); [by left|].
    destruct (find_table_elem db t Hin) as (tb & Htb & _).
    assert (Hf : table_frame db t = frame_of tb)
      by (unfold table_frame; by rewrite Htb).
    rewrite Hf in Hdf.
    destruct (export_table_ok c t w tb df Hw Htb Hq Hs)
      as (w1 & H1 & Hcsv1 & Hk1 & Hl1 & Ht1 & Hc1 & Hdir1 & Hd1);
      [apply Hst|apply Hos|done|done|].
    destruct (IH w1 Hd1) as (w' & H2 & Hcsv2 & Hk2 & Hl2 & Ht2 & Hc2 & Hdir2 & Hd2);
      [by apply (ready_cons t)|done|by rewrite Hdir1|].
    exists w'. cbn [for_each]. unfold bind at 1. rewrite H1.
    split; [exact H2|].
    rewrite Hcsv2, Hk2, Hl2, Ht2, Hc2, Hdir2, Hcsv1, Hk1, Hl1, Ht1, Hc1, Hdir1.
    cbn [export_files export_reports map length].
    rewrite <- !app_assoc. repeat split; try done. lia.
Qed.

Lemma export_loop_stops c pre t post e : ∀ w,
  w_dbfile w = Sqlite db → ready L db pre → plain_stamps L →
  OUTPUT_DIR ∈ w_dirs w →
  t ∈ map t_name db → DQUOTE ∉ t →
  clean_frame (table_frame db t) = Raise e →
  ∃ w',
    for_each (pre ++ t :: post) (export_table L c) w = (Raise e, w')
    ∧ w_csv w' = w_csv w ++ export_files L db (w_clock w) pre
    ∧ w_trace w' = w_trace w ++ map (λ u, EvExecute c (SelectAll u)) (pre ++ [t])
    ∧ w_console w' = w_console w.
Proof.
  induction pre as [|u pre IH]; intros w Hw Hready Hst Hdir Hin Hq He.
  - destruct (find_table_elem db t Hin) as (tb & Htb & _).
    assert (Hf : table_frame db t = frame_of tb)
      by (unfold table_frame; by rewrite Htb).
    rewrite Hf in He. eexists. cbn [app for_each]. unfold bind at 1.
    rewrite (export_table_raise c t w tb e Hw Htb Hq He).
    split; [reflexivity|]. fields. cbn [export_files map app].
    by rewrite app_nil_r.
  - destruct (Hready u) as (Hin' & Hq' & Hs' & Hos' & df & Hdf); [by left|].
    destruct (find_table_elem db u Hin') as (tb & Htb & _).
    assert (Hf : table_frame db u = frame_of tb)
      by (unfold table_frame; by rewrite Htb).
    rewrite Hf in Hdf.
    destruct (export_table_ok c u w tb df Hw Htb Hq' Hs')
      as (w1 & H1 & Hcsv1 & Hk1 & _ & Ht1 & Hc1 & Hdir1 & Hd1);
      [apply Hst|apply Hos'|done|done|].
    destruct (IH w1 Hd1) as (w' & H2 & Hcsv2 & Ht2 & Hc2);
      [by apply (ready_cons u)|done|by rewrite Hdir1|done|done|done|].
    exists w'. cbn [app for_each]. unfold bind at 1. rewrite H1.
    split; [exact H2|].
    rewrite Hcsv2, Ht2, Hc2, Hcsv1, Hk1, Ht1, Hc1. cbn [export_files map app].
    by rewrite <- !app_assoc.
Qed.

Lemma opened_export_fields w :
  w_csv (opened_export w) = w_csv w
  ∧ w_clock (opened_export w) = w_clock w
  ∧ w_console (opened_export w) = w_console w
  ∧ w_dirs (opened_export w) = w_dirs w ++ [OUTPUT_DIR]
  ∧ log_lines (opened_export w)
    = log_lines w ++ banner_lines "EXPORTING DATA TO CSV".
Proof.
  unfold opened_export. repeat step. cbn [snd connect]. fields.
  unfold banner_lines. by rewrite <- !app_assoc.
Qed.

(** An export that nothing stops. *)
Lemma export_to_csv_ok w :
  w_dbfile w = Sqlite db → exportable L db → plain_stamps L →
  ∃ w',
    export_to_csv L w = (Ok tt, w')
    ∧ w_dirs w' = w_dirs w ++ [OUTPUT_DIR]
    ∧ w_trace w'
      = w_trace w
        ++ segment Export (w_conns w) (ListTables :: map SelectAll (map t_name db))
    ∧ log_lines w'
      = log_lines w ++ banner_lines "EXPORTING DATA TO CSV"
        ++ export_reports L db (w_clock w) (map t_name db)
        ++ [[NL; Lit "All exports complete! Files saved to: "; PathOf OUTPUT_DIR]]
    ∧ w_console w'
      = w_console w
        ++ [[NL; Lit "CSV export complete! Files saved to: "; PathOf OUTPUT_DIR]]
    ∧ w_csv w' = w_csv w ++ export_files L db (w_clock w) (map t_name db).
Proof.
  intros Hw Hx Hst. unfold export_to_csv. rewrite export_opened.
  pose proof (opened_export_dbfile w db Hw) as Hd.
  pose proof (opened_export_trace w) as Ht0.
  destruct (opened_export_fields w) as (Hcsv0 & Hk0 & Hc0 & Hdir0 & Hl0).
  set (c := w_conns w) in *. set (w0 := opened_export w) in *.
  destruct (export_loop_exact c (map t_name db) (emit (EvExecute c ListTables) w0))
    as (w1 & H1 & Hcsv1 & _ & Hl1 & Ht1 & Hc1 & Hdir1 & _);
    [done|done|done| |].
  { fields. rewrite Hdir0. apply elem_of_app. right. by left. }
  revert Hcsv1 Hl1 Ht1 Hc1 Hdir1. fields. intros Hcsv1 Hl1 Ht1 Hc1 Hdir1.
  eexists. split.
  - unfold bind at 1, try_except, export_body. rewrite bind_execute, Hd.
    cbn [sqlite_answer answer_tables]. unfold bind at 1. rewrite H1.
    rewrite bind_log_output. unfold print, close. reflexivity.
  - fields. rewrite Hdir1, Hdir0, Hl1, Hl0, Ht1, Ht0, Hc1, Hc0, Hcsv1, Hcsv0, Hk0.
    split; [done|]. split.
    { unfold segment. rewrite <- !app_assoc. cbn [map app]. f_equal.
      f_equal. f_equal. f_equal. by rewrite (map_map SelectAll). }
    split; [by rewrite <- !app_assoc|]. done.
Qed.

End ExportReport.

(** ** Traces *)

Lemma stage_calls_executes c qs : stage_calls (map (EvExecute c) qs) = [].
Proof. induction qs as [|q qs IH]; [done|]. exact IH. Qed.

Lemma stage_calls_segment s c qs : stage_calls (segment s c qs) = [s].
Proof.
  unfold segment, stage_calls. cbn [omap list_omap]. f_equal.
  rewrite omap_app. fold (stage_calls (map (EvExecute c) qs)).
  by rewrite stage_calls_executes.
Qed.



(** ** Failures inside the two [try] blocks *)

Section Handled.

Context (L : Libs).

Lemma export_to_csv_handled w :
  ∃ qs w',
    export_to_csv L w = (Ok tt, w')
    ∧ w_trace w' = w_trace w ++ segment Export (w_conns w) qs
    ∧ ∀ e w1,
        export_body L (w_conns w) (opened_export w) = (Raise e, w1) →
        log_lines w' = log_lines w1 ++ [export_error e]
        ∧ w_console w' = w_console w1 ++ [export_error e].
Proof.
  unfold export_to_csv. rewrite export_opened.
  pose proof (opened_export_trace w) as Ht0.
  set (c := w_conns w) in *. set (w0 := opened_export w) in *.
  assert (Hr : runs_on c (export_body L c)) by (unfold export_body; runs).
  destruct (Hr w0) as (qs & Ht & _ & _).
  unfold bind at 1, try_except.
  destruct (export_body L c w0) as [[[]|e] w1]; cbn [snd] in Ht;
    cbn beta; rewrite ?bind_log_output; unfold print, close;
    exists qs; eexists; (split; [reflexivity|]).
  - split; [|done]. fields. rewrite Ht, Ht0.
    unfold segment. by rewrite <- !app_assoc.
  - split.
    + fields. rewrite Ht, Ht0. unfold segment. by rewrite <- !app_assoc.
    + intros ? ? [= <- <-]. by fields.
Qed.

(** A file that is not a database stops the first two stages at their
    first statement: nothing is caught, nothing is logged about it, and
    the connection stays open. *)
Lemma inspect_database_garbage w :
  w_dbfile w = Garbage →
  ∃ w',
    inspect_database w = (Raise (DatabaseError "file is not a database"), w')
    ∧ w_trace w'
      = w_trace w ++ [EvCall Inspect; EvConnect (w_conns w);
                      EvExecute (w_conns w) ListTables]
    ∧ log_lines w' = log_lines w ++ banner_lines "INSPECTING DATABASE STRUCTURE"
    ∧ w_console w' = w_console w.
Proof.
  intros Hw. unfold inspect_database. do 3 step. rewrite bind_execute.
  assert (Hd : w_dbfile (connected
            (logged [Rule "=" 60] (logged [Lit "INSPECTING DATABASE STRUCTURE"]
               (logged [Rule "=" 60] (emit (EvCall Inspect) w))))) = Garbage)
    by (simpl; by rewrite Hw).
  rewrite Hd. cbn [sqlite_answer]. eexists. split; [reflexivity|].
  fields. unfold banner_lines. by rewrite <- !app_assoc.
Qed.

Lemma load_data_garbage w :
  w_dbfile w = Garbage →
  ∃ w',
    load_data L w = (Raise (DatabaseError "file is not a database"), w')
    ∧ w_trace w'
      = w_trace w ++ [EvCall Load; EvConnect (w_conns w);
                      EvExecute (w_conns w) ListTables]
    ∧ log_lines w' = log_lines w ++ banner_lines "LOADING DATA INTO PANDAS"
    ∧ w_console w' = w_console w.
Proof.
  intros Hw. unfold load_data. do 3 step. rewrite bind_execute.
  assert (Hd : w_dbfile (connected
            (logged [Rule "=" 60] (logged [Lit "LOADING DATA INTO PANDAS"]
               (logged [Rule "=" 60] (emit (EvCall Load) w))))) = Garbage)
    by (simpl; by rewrite Hw).
  rewrite Hd. cbn [sqlite_answer]. eexists. split; [reflexivity|].
  fields. unfold banner_lines. by rewrite <- !app_assoc.
Qed.

End Handled.

(** ** A whole run *)

Section Run.

Context (L : Libs).

Lemma greeted_fields w found :
  w_dbfile (greeted L w found) = w_dbfile w
  ∧ w_trace (greeted L w found) = w_trace w
  ∧ w_conns (greeted L w found) = w_conns w
  ∧ w_csv (greeted L w found) = w_csv w
  ∧ w_log (greeted L w found) = w_log w
  ∧ w_clock (greeted L w found) = S (w_clock w).
Proof. done. Qed.

Lemma script_found w :
  w_dbfile w ≠ Missing →
  script L w
  = (inspect_database ;;
     dataframes <- load_data L ;;
     example_queries L ;;
     export_to_csv L ;;
     print (COMPLETE L w)) (greeted L w true).
Proof.
  intros Hw. unfold script, main, module_init.
  unfold bind at 1. rewrite bind_mkdir, bind_now_stamp.
  unfold set_LOG_FILE. repeat step. fields.
  by destruct (w_dbfile w).
Qed.

Lemma script_missing w :
  w_dbfile w = Missing →
  script L w = (Ok tt, printed NOT_FOUND (greeted L w false)).
Proof.
  intros Hw. unfold script, main, module_init.
  unfold bind at 1. rewrite bind_mkdir, bind_now_stamp.
  unfold set_LOG_FILE. repeat step. fields. rewrite Hw. reflexivity.
Qed.

(** On a database the run goes through the four stages, each with a
    connection of its own that it closes, and ends with the closing
    line on the console. *)
Lemma script_run w db :
  w_dbfile w = Sqlite db → plain_names db →
  ∃ q3 q4 w',
    script L w = (Ok tt, w')
    ∧ w_trace w'
      = w_trace w
        ++ segment Inspect (w_conns w) (inspect_statements (map t_name db))
        ++ segment Load (S (w_conns w)) (ListTables :: map SelectAll (map t_name db))
        ++ segment Queries (S (S (w_conns w))) q3
        ++ segment Export (S (S (S (w_conns w)))) q4
    ∧ q3 `prefix_of` EXAMPLE_QUERIES
    ∧ (∃ ts, ts `prefix_of` map t_name db ∧ q4 = ListTables :: map SelectAll ts)
    ∧ last (w_console w') = Some (COMPLETE L w).
Proof.
  intros Hw Hp. rewrite (script_found w) by congruence.
  destruct (greeted_fields w true) as (Hgd & Hgt & Hgc & _).
  assert (Hg : w_dbfile (greeted L w true) = Sqlite db) by congruence.
  destruct (inspect_database_ok db _ Hg Hp) as (w1 & H1 & _ & Ht1 & Hd1 & Hc1).
  destruct (load_data_ok L db w1 Hd1 Hp) as (w2 & H2 & _ & Ht2 & Hd2 & Hc2).
  destruct (example_queries_handled L w2) as (q3 & w3 & Hq3 & H3 & Ht3 & _).
  destruct (example_queries_segment L w2 db Hd2) as (q3' & w3' & H3' & _ & Hd3 & Hc3).
  rewrite H3 in H3'. injection H3' as <-.
  destruct (export_to_csv_sends L db w3 Hd3) as (ts & w4 & Hts & H4 & Ht4).
  exists q3, (ListTables :: map SelectAll ts). eexists.
  unfold bind at 1. rewrite H1. unfold bind at 1. rewrite H2.
  unfold bind at 1. rewrite H3. unfold bind at 1. rewrite H4.
  split; [reflexivity|]. unfold print. fields.
  split; [|split; [done|split; [by exists ts|apply last_snoc]]].
  rewrite Ht4, Ht3, Ht2, Ht1, Hc3, Hc2, Hc1, Hgt, Hgc.
  by rewrite <- !app_assoc.
Qed.

(** The stages a run on a database enters. *)
Lemma script_calls w db :
  w_dbfile w = Sqlite db → plain_names db →
  ∃ w',
    script L w = (Ok tt, w')
    ∧ stage_calls (w_trace w')
      = stage_calls (w_trace w) ++ [Inspect; Load; Queries; Export]
    ∧ last (w_console w') = Some (COMPLETE L w).
Proof.
  intros Hw Hp.
  destruct (script_run w db Hw Hp) as (q3 & q4 & w' & Hrun & Ht & _ & _ & Hc).
  exists w'. split; [done|]. split; [|done].
  rewrite Ht. unfold stage_calls. rewrite !omap_app.
  fold (stage_calls (w_trace w)).
  repeat match goal with
  | |- context [omap ?f (segment ?s ?c ?qs)] =>
      change (omap f (segment s c qs)) with (stage_calls (segment s c qs));
      rewrite stage_calls_segment
  end.
  reflexivity.
Qed.

(** A file that is not a database ends the run in the first stage. *)
Lemma script_garbage w :
  w_dbfile w = Garbage →
  ∃ w',
    script L w = (Raise (DatabaseError "file is not a database"), w')
    ∧ stage_calls (w_trace w') = stage_calls (w_trace w) ++ [Inspect].
Proof.
  intros Hw. rewrite (script_found w) by congruence.
  destruct (greeted_fields w true) as (Hgd & Hgt & Hgc & _).
  destruct (inspect_database_garbage (greeted L w true)) as (w1 & H1 & Ht1 & _);
    [congruence|].
  exists w1. unfold bind at 1. rewrite H1. split; [done|].
  rewrite Ht1, Hgt. unfold stage_calls. by rewrite omap_app.
Qed.

End Run.

(** ** Files of the export *)

Lemma export_written L w db k p df' :
  w_dbfile w = Sqlite db →
  w_csv (export_to_csv L w).2 !! (length (w_csv w) + k) = Some (p, df') →
  ∃ t, map t_name db !! k = Some t
       ∧ p = Join OUTPUT_DIR (csv_filename t (strftime_now L (w_clock w + k)))
       ∧ df' = cleaned (table_frame db t).
Proof.
  intros Hw Hk.
  destruct (export_to_csv_files L w db Hw) as (done & [rest Hpre] & Hcsv).
  rewrite Hcsv, lookup_app_r, Nat.add_comm, Nat.add_sub in Hk by lia.
  rewrite export_files_lookup in Hk.
  destruct (done !! k) as [t|] eqn:Ht; [|done]. simpl in Hk.
  exists t. split; [rewrite Hpre; by apply lookup_app_l_Some|].
  unfold export_file in Hk. by simplify_eq.
Qed.

Lemma cleaned_lookup df i :
  cleaned df !! i = (λ p, (p.1, clean_column p.2)) <$> df !! i.
Proof. unfold cleaned. apply list_lookup_fmap. Qed.


(** *** Paths of the files *)

Lemma csv_filename_inj t1 t2 s1 s2 :
  length s1 = length s2 →
  csv_filename t1 s1 = csv_filename t2 s2 →
  replace SPACE UNDERSCORE t1 = replace SPACE UNDERSCORE t2.
Proof.
  intros Hlen H. unfold csv_filename in H. apply app_inv_head in H.
  apply app_inj_2 in H as [H _]; [done|].
  by rewrite !length_app, Hlen.
Qed.

Lemma export_files_elem L db names : ∀ n p,
  p ∈ map fst (export_files L db n names) →
  ∃ u k, u ∈ names ∧ p = Join OUTPUT_DIR (csv_filename u (strftime_now L k)).
Proof.
  induction names as [|t names IH]; intros n p Hp.
  - by apply elem_of_nil in Hp.
  - cbn [export_files map] in Hp. apply elem_of_cons in Hp as [->|Hp].
    + exists t, n. split; [by left|done].
    + destruct (IH _ _ Hp) as (u & k & Hu & ->). exists u, k.
      split; [by right|done].
Qed.

(** Tables whose names differ once spaces are underscores get files of
    different paths, whatever the clock reads. *)
Lemma export_files_distinct L db names :
  plain_stamps L →
  NoDup (map (replace SPACE UNDERSCORE) names) →
  ∀ n, NoDup (map fst (export_files L db n names)).
Proof.
  intros Hst. induction names as [|t names IH]; intros Hnd n.
  - constructor.
  - cbn [map] in Hnd. apply NoDup_cons in Hnd as [Ht Hnd].
    cbn [export_files map]. apply NoDup_cons. split; [|by apply IH].
    intros Hin. apply export_files_elem in Hin as (u & k & Hu & Heq).
    apply (f_equal file_name) in Heq. cbn [export_file fst file_name] in Heq.
    apply csv_filename_inj in Heq.
    + apply Ht. rewrite Heq. apply list_elem_of_fmap. by exists u.
    + destruct (Hst n) as [-> _]. by destruct (Hst k) as [-> _].
Qed.




Lemma exportable_plain L db : exportable L db → plain_names db.
Proof. intros Hx t Ht. by destruct (Hx t Ht) as (_ & Hq & _). Qed.

Lemma toy_plain_stamps : plain_stamps Toy.libs.
Proof.
  intros n. split; [reflexivity|].
  apply (bool_decide_unpack _). vm_compute. exact I.
Defined.

Lemma toy_exportable : exportable Toy.libs Toy.db.
Proof.
  intros t Ht. split; [done|].
  apply elem_of_cons in Ht as [->|Ht].
  { split; [|split]; [apply (bool_decide_unpack _); vm_compute; exact I..|].
    split; [done|]. eexists. vm_compute. reflexivity. }
  apply elem_of_cons in Ht as [->|Ht]; [|by apply elem_of_nil in Ht].
  split; [|split]; [apply (bool_decide_unpack _); vm_compute; exact I..|].
  split; [done|]. eexists. vm_compute. reflexivity.
Defined.


(** * The stages, property by property *)

(** ** CSV export: what is written *)

(** C3.  In every file the export writes, every column that is of
    object (text) dtype in the table holds no value with a newline or a
    carriage return: the file written [k]-th is that of the [k]-th table
    enumerated, it has the columns of the table, and each value of such
    a column is free of both characters. *)
Theorem export_text_columns_no_linebreak L w db k p df' :
  w_dbfile w = Sqlite db →
  w_csv (export_to_csv L w).2 !! (length (w_csv w) + k) = Some (p, df') →
  ∃ t,
    map t_name db !! k = Some t
    ∧ df_columns df' = df_columns (table_frame db t)
    ∧ ∀ i col s,
        table_frame db t !! i = Some (col, s) → s_dtype s = dt_object →
        ∃ s',
          df' !! i = Some (col, s')
          ∧ length (s_values s') = length (s_values s)
          ∧ ∀ v, v ∈ s_values s' → no_linebreak v.
Proof.
  intros Hw Hk. destruct (export_written L w db k p df' Hw Hk) as (t & Ht & _ & ->).
  exists t. split; [done|]. split.
  - unfold cleaned, df_columns. rewrite <- list_fmap_compose.
    by apply list_fmap_ext.
  - intros i col s Hi Hs. rewrite cleaned_lookup, Hi. simpl.
    unfold clean_column. rewrite decide_True by done.
    eexists. split; [reflexivity|]. simpl. split; [by rewrite length_map|].
    intros v (c & -> & _)%list_elem_of_fmap. apply clean_cell_no_linebreak.
Qed.

Lemma export_text_columns_no_linebreak_witness :
  w_dbfile (Toy.start (Sqlite Toy.db)) = Sqlite Toy.db
  ∧ ∃ p df',
      w_csv (export_to_csv Toy.libs (Toy.start (Sqlite Toy.db))).2 !! 0
      = Some (p, df')
      ∧ ∃ t,
          map t_name Toy.db !! 0 = Some t
          ∧ df_columns df' = df_columns (table_frame Toy.db t)
          ∧ ∀ i col s,
              table_frame Toy.db t !! i = Some (col, s) →
              s_dtype s = dt_object →
              ∃ s',
                df' !! i = Some (col, s')
                ∧ length (s_values s') = length (s_values s)
                ∧ ∀ v, v ∈ s_values s' → no_linebreak v.
Proof.
  split; [reflexivity|].
  eexists _, _. split; [vm_compute; reflexivity|].
  eapply (export_text_columns_no_linebreak Toy.libs (Toy.start (Sqlite Toy.db))
            Toy.db 0); [reflexivity|vm_compute; reflexivity].
Defined.

(** C10.  The clean-up touches columns of object dtype only: in every
    file the export writes, a column whose dtype is not object is the
    column of the table, value for value. *)
Theorem export_other_columns_unchanged L w db k p df' :
  w_dbfile w = Sqlite db →
  w_csv (export_to_csv L w).2 !! (length (w_csv w) + k) = Some (p, df') →
  ∃ t,
    map t_name db !! k = Some t
    ∧ ∀ i col s,
        table_frame db t !! i = Some (col, s) → s_dtype s ≠ dt_object →
        df' !! i = Some (col, s).
Proof.
  intros Hw Hk. destruct (export_written L w db k p df' Hw Hk) as (t & Ht & _ & ->).
  exists t. split; [done|].
  intros i col s Hi Hs. rewrite cleaned_lookup, Hi. simpl.
  unfold clean_column. by rewrite decide_False.
Qed.

Lemma export_other_columns_unchanged_witness :
  w_dbfile (Toy.start (Sqlite Toy.db)) = Sqlite Toy.db
  ∧ ∃ p df',
      w_csv (export_to_csv Toy.libs (Toy.start (Sqlite Toy.db))).2 !! 0
      = Some (p, df')
      ∧ table_frame Toy.db (t_name Toy.attacks) !! 0
        = Some (py "ID", Toy.ints [1; 2; 3]%Z)
      ∧ df' !! 0 = Some (py "ID", Toy.ints [1; 2; 3]%Z).
Proof.
  split; [reflexivity|].
  eexists _, _. split; [vm_compute; reflexivity|]. split; [reflexivity|].
  destruct (export_other_columns_unchanged Toy.libs (Toy.start (Sqlite Toy.db))
              Toy.db 0 _ _ eq_refl eq_refl) as (t & Ht & Hcols).
  injection Ht as <-.
  apply (Hcols 0 (py "ID") (Toy.ints [1; 2; 3]%Z)); [reflexivity|discriminate].
Defined.

(** C2, as amended.  A value the export reads comes out unchanged when
    it stands in a column that is not of object dtype, or is a text with
    no line break and no white space at its ends.  In a column of object
    dtype every text is written with each newline and each carriage
    return replaced by a space and the white space at both ends then
    stripped. *)
Theorem export_keeps_clean_values L w db k p df' :
  w_dbfile w = Sqlite db →
  w_csv (export_to_csv L w).2 !! (length (w_csv w) + k) = Some (p, df') →
  ∃ t,
    map t_name db !! k = Some t
    ∧ (∀ i j col s v,
         table_frame db t !! i = Some (col, s) → s_values s !! j = Some v →
         kept s v →
         cell_at df' i j = Some v)
    ∧ (∀ i j col s x,
         table_frame db t !! i = Some (col, s) → s_dtype s = dt_object →
         s_values s !! j = Some (VText x) →
         cell_at df' i j
         = Some (VText (strip (replace CR SPACE (replace LF SPACE x))))).
Proof.
  intros Hw Hk. destruct (export_written L w db k p df' Hw Hk) as (t & Ht & _ & ->).
  exists t. split; [done|]. split.
  - intros i j col s v Hi Hj Hkept. unfold cell_at.
    rewrite cleaned_lookup, Hi. simpl. unfold clean_column.
    destruct (decide (s_dtype s = dt_object)) as [Hs|Hs]; [|done].
    destruct Hkept as [Hno|(x & -> & HLF & HCR & Htrim)]; [done|].
    simpl. rewrite list_lookup_fmap, Hj. simpl.
    by rewrite clean_text_id.
  - intros i j col s x Hi Hs Hj. unfold cell_at.
    rewrite cleaned_lookup, Hi. simpl. unfold clean_column.
    rewrite decide_True by done. simpl.
    by rewrite list_lookup_fmap, Hj.
Qed.

Lemma export_keeps_clean_values_witness :
  w_dbfile (Toy.start (Sqlite Toy.db)) = Sqlite Toy.db
  ∧ ∃ p df',
      w_csv (export_to_csv Toy.libs (Toy.start (Sqlite Toy.db))).2 !! 0
      = Some (p, df')
      ∧ cell_at (table_frame Toy.db (t_name Toy.attacks)) 1 1
        = Some (VText (py "2016 (est.)"))
      ∧ cell_at df' 1 1 = Some (VText (py "2016 (est.)"))
      ∧ cell_at (table_frame Toy.db (t_name Toy.attacks)) 2 1
        = Some (VText [74; 97; 109; 10; 109; 105; 110; 103]%N)
      ∧ cell_at df' 2 1 = Some (VText (py "Jam ming")).
Proof.
  split; [reflexivity|].
  eexists _, _. split; [vm_compute; reflexivity|]. split; [reflexivity|].
  destruct (export_keeps_clean_values Toy.libs (Toy.start (Sqlite Toy.db))
              Toy.db 0 _ _ eq_refl eq_refl) as (t & Ht & Hcells & Htexts).
  injection Ht as <-. split; [|split; [reflexivity|]].
  - apply (Hcells 1 1 (py "Year")
             (Toy.text [py "2015"; py "2016 (est.)"; py "2015"]));
      [reflexivity|reflexivity|].
    right. exists (py "2016 (est.)").
    split; [reflexivity|]. split; [|split].
    + apply (bool_decide_unpack _). vm_compute. exact I.
    + apply (bool_decide_unpack _). vm_compute. exact I.
    + split; [reflexivity|]. eexists. split; reflexivity.
  - etrans;
      [apply (Htexts 2 1 (py "Attack Type")
                (Toy.text [py " Replay"; [74; 97; 109; 10; 109; 105; 110; 103]%N;
                           py "Replay "]));
       reflexivity|].
    vm_compute. reflexivity.
Defined.

(** C2, as stated, fails: the text [" Replay"] of the column
    "Attack Type" holds no line break, and the export writes ["Replay"]
    in its place. *)
Lemma export_strips_white_space :
  ∃ p df',
    w_csv (export_to_csv Toy.libs (Toy.start (Sqlite Toy.db))).2 !! 0
    = Some (p, df')
    ∧ cell_at (table_frame Toy.db (t_name Toy.attacks)) 2 0
      = Some (VText (py " Replay"))
    ∧ no_linebreak (VText (py " Replay"))
    ∧ cell_at df' 2 0 = Some (VText (py "Replay"))
    ∧ cell_at df' 2 0 ≠ cell_at (table_frame Toy.db (t_name Toy.attacks)) 2 0.
Proof.
  eexists _, _. split; [vm_compute; reflexivity|].
  split; [reflexivity|]. split; [|split; [reflexivity|discriminate]].
  split; apply (bool_decide_unpack _); vm_compute; exact I.
Qed.




(** ** Bulk load *)





(** ** Connections *)




(** ** Order of the stages *)




(** ** Example queries *)






(** ** Failures *)

Lemma toy_blobs_plain : plain_names Toy.blobs.
Proof.
  intros t Ht. apply elem_of_cons in Ht as [->|Ht]; [|by apply elem_of_nil in Ht].
  apply (bool_decide_unpack _). vm_compute. exact I.
Defined.

(** C4.  An exception raised inside the [try] of the example queries or
    of the export is caught: the stage returns, the message is in the
    log (and, for the export, on the console) and the connection is
    closed.  So a run that has come to these two stages goes on to its
    end whatever they meet: both return and the closing line is printed;
    on a database whose table names hold no double quote the run comes
    to them and goes through the four stages.  The first two stages have
    no such handling: where the file is not a database their first
    statement raises, nothing is logged about it, the connection is left
    open and the run ends there. *)
Theorem failures_caught_in_queries_and_export L w :
  (∃ qs w',
     example_queries L w = (Ok tt, w')
     ∧ w_trace w' = w_trace w ++ segment Queries (w_conns w) qs
     ∧ ∀ e w1,
         example_queries_body L (w_conns w) (opened Queries "EXAMPLE QUERIES" w)
         = (Raise e, w1) →
         log_lines w' = log_lines w1 ++ [[Lit "Query error: "; Exc e]])
  ∧ (∃ qs w',
       export_to_csv L w = (Ok tt, w')
       ∧ w_trace w' = w_trace w ++ segment Export (w_conns w) qs
       ∧ ∀ e w1,
           export_body L (w_conns w) (opened_export w) = (Raise e, w1) →
           log_lines w' = log_lines w1 ++ [[Lit "Export error: "; Exc e]]
           ∧ w_console w' = w_console w1 ++ [[Lit "Export error: "; Exc e]])
  ∧ (∀ msg, ∃ w3 w4,
       example_queries L w = (Ok tt, w3)
       ∧ export_to_csv L w3 = (Ok tt, w4)
       ∧ (example_queries L ;; export_to_csv L ;; print msg) w
         = (Ok tt, printed msg w4)
       ∧ stage_calls (w_trace w4) = stage_calls (w_trace w) ++ [Queries; Export])
  ∧ (∀ db,
       w_dbfile w = Sqlite db → plain_names db →
       ∃ w',
         script L w = (Ok tt, w')
         ∧ stage_calls (w_trace w')
           = stage_calls (w_trace w) ++ [Inspect; Load; Queries; Export]
         ∧ last (w_console w') = Some (COMPLETE L w))
  ∧ (w_dbfile w = Garbage →
       (∃ w',
          inspect_database w
          = (Raise (DatabaseError "file is not a database"), w')
          ∧ w_trace w'
            = w_trace w ++ [EvCall Inspect; EvConnect (w_conns w);
                            EvExecute (w_conns w) ListTables]
          ∧ log_lines w'
            = log_lines w ++ banner_lines "INSPECTING DATABASE STRUCTURE")
       ∧ (∃ w',
            load_data L w
            = (Raise (DatabaseError "file is not a database"), w')
            ∧ w_trace w'
              = w_trace w ++ [EvCall Load; EvConnect (w_conns w);
                              EvExecute (w_conns w) ListTables]
            ∧ log_lines w'
              = log_lines w ++ banner_lines "LOADING DATA INTO PANDAS")
       ∧ ∃ w',
           script L w = (Raise (DatabaseError "file is not a database"), w')
           ∧ stage_calls (w_trace w') = stage_calls (w_trace w) ++ [Inspect]).
Proof.
  split; [|split; [|split; [|split]]].
  - destruct (example_queries_handled L w) as (qs & w' & _ & Hrun & Ht & Hlog).
    exists qs, w'. split; [done|]. split; [done|].
    intros e w1 Hb. by destruct (Hlog e w1 Hb).
  - apply export_to_csv_handled.
  - intros msg.
    destruct (example_queries_handled L w) as (q3 & w3 & _ & H3 & Ht3 & _).
    destruct (export_to_csv_handled L w3) as (q4 & w4 & H4 & Ht4 & _).
    exists w3, w4. split; [done|]. split; [done|]. split.
    + unfold bind at 1. rewrite H3. unfold bind at 1. by rewrite H4.
    + rewrite Ht4, Ht3. unfold stage_calls. rewrite !omap_app.
      fold (stage_calls (w_trace w)).
      repeat match goal with
      | |- context [omap ?f (segment ?s ?c ?qs)] =>
          change (omap f (segment s c qs)) with (stage_calls (segment s c qs));
          rewrite stage_calls_segment
      end.
      by rewrite <- app_assoc.
  - intros db Hw Hp. by apply (script_calls L w db).
  - intros Hw. split; [|split].
    + destruct (inspect_database_garbage w Hw) as (w' & Hrun & Ht & Hl & _).
      by exists w'.
    + destruct (load_data_garbage L w Hw) as (w' & Hrun & Ht & Hl & _).
      by exists w'.
    + by apply script_garbage.
Qed.

Lemma failures_caught_in_queries_and_export_witness :
  (∃ e w',
     example_queries Toy.libs (Toy.start (Sqlite Toy.blobs)) = (Ok tt, w')
     ∧ last (log_lines w') = Some [Lit "Query error: "; Exc e])
  ∧ (∃ e w',
       export_to_csv Toy.libs (Toy.start (Sqlite Toy.blobs)) = (Ok tt, w')
       ∧ last (log_lines w') = Some [Lit "Export error: "; Exc e]
       ∧ last (w_console w') = Some [Lit "Export error: "; Exc e])
  ∧ (w_dbfile (Toy.start (Sqlite Toy.blobs)) = Sqlite Toy.blobs
     ∧ plain_names Toy.blobs
     ∧ ∃ w', script Toy.libs (Toy.start (Sqlite Toy.blobs)) = (Ok tt, w'))
  ∧ (w_dbfile (Toy.start Garbage) = Garbage
     ∧ ∃ w',
         script Toy.libs (Toy.start Garbage)
         = (Raise (DatabaseError "file is not a database"), w')).
Proof.
  destruct (failures_caught_in_queries_and_export Toy.libs
              (Toy.start (Sqlite Toy.blobs)))
    as ((q3 & w3 & Hq & _ & Hq') & (q4 & w4 & He & _ & He') & _ & Hrun & _).
  destruct (failures_caught_in_queries_and_export Toy.libs (Toy.start Garbage))
    as (_ & _ & _ & _ & Hg).
  split; [|split; [|split]].
  - exists (ExecutionFailed (OperationalError "no such table")), w3.
    split; [exact Hq|].
    evar (w1 : world).
    assert (Hb : example_queries_body Toy.libs
                   (w_conns (Toy.start (Sqlite Toy.blobs)))
                   (opened Queries "EXAMPLE QUERIES" (Toy.start (Sqlite Toy.blobs)))
                 = (Raise (ExecutionFailed (OperationalError "no such table")), w1))
      by (subst w1; vm_compute; reflexivity).
    rewrite (Hq' _ _ Hb). apply last_snoc.
  - exists (NOT_FOR_BYTES "replace"), w4.
    split; [exact He|].
    evar (w1 : world).
    assert (Hb : export_body Toy.libs (w_conns (Toy.start (Sqlite Toy.blobs)))
                   (opened_export (Toy.start (Sqlite Toy.blobs)))
                 = (Raise (NOT_FOR_BYTES "replace"), w1))
      by (subst w1; vm_compute; reflexivity).
    destruct (He' _ _ Hb) as [Hl Hc]. rewrite Hl, Hc. split; apply last_snoc.
  - split; [reflexivity|]. split; [exact toy_blobs_plain|].
    destruct (Hrun Toy.blobs eq_refl toy_blobs_plain) as (w' & Hw' & _).
    by exists w'.
  - split; [reflexivity|]. destruct (Hg eq_refl) as (_ & _ & w' & Hw' & _).
    by exists w'.
Defined.

(** ** No database *)

(** C9, as amended.  Where there is no file at [DB_PATH], the run opens
    no connection and executes nothing, writes no line to a log file and
    no CSV file; it makes the directory of the logs, prints the three
    lines of the greeting and then the error message, and ends. *)
Theorem missing_database_only_prints L w :
  w_dbfile w = Missing →
  ∃ w',
    script L w = (Ok tt, w')
    ∧ w_trace w' = w_trace w
    ∧ w_conns w' = w_conns w
    ∧ w_dbfile w' = Missing
    ∧ w_log w' = w_log w
    ∧ w_csv w' = w_csv w
    ∧ w_dirs w' = w_dirs w ++ [LOG_DIR]
    ∧ w_console w'
      = w_console w
        ++ [ [NL; Lit "Database path: "; PathOf DB_PATH];
             [Lit "Database exists: "; Bool false];
             [Lit "Log file: "; PathOf (LOG_FILE_of L w); NL];
             [Lit "ERROR: Database file not found!"] ].
Proof.
  intros Hw. rewrite (script_missing L w Hw). eexists. split; [reflexivity|].
  unfold greeted. cbn [w_trace w_conns w_dbfile w_log w_csv w_dirs w_console
                       printed with_LOG_FILE ticked made_dir].
  rewrite Hw, <- !app_assoc. done.
Qed.

Lemma missing_database_only_prints_witness :
  w_dbfile (Toy.start Missing) = Missing
  ∧ ∃ w',
      script Toy.libs (Toy.start Missing) = (Ok tt, w')
      ∧ w_trace w' = []
      ∧ w_log w' = None
      ∧ w_csv w' = []
      ∧ last (w_console w') = Some [Lit "ERROR: Database file not found!"].
Proof.
  split; [reflexivity|].
  destruct (missing_database_only_prints Toy.libs (Toy.start Missing) eq_refl)
    as (w' & Hrun & Ht & _ & _ & Hl & Hc & _ & Hco).
  exists w'. split; [exact Hrun|]. split; [exact Ht|]. split; [exact Hl|].
  split; [exact Hc|]. rewrite Hco. reflexivity.
Defined.

(** C9, as stated, fails: with no database the run does not only print
    an error message; it prints the three lines of the greeting before
    it and makes the directory of the logs. *)
Lemma missing_database_prints_more :
  w_dbfile (Toy.start Missing) = Missing
  ∧ w_console (script Toy.libs (Toy.start Missing)).2
    = [ [NL; Lit "Database path: "; PathOf DB_PATH];
        [Lit "Database exists: "; Bool false];
        [Lit "Log file: ";
         PathOf (Join LOG_DIR (py "AAD_analysis_20250101_120000.log")); NL];
        [Lit "ERROR: Database file not found!"] ]
  ∧ w_console (script Toy.libs (Toy.start Missing)).2
    ≠ [[Lit "ERROR: Database file not found!"]]
  ∧ w_dirs (Toy.start Missing) = []
  ∧ w_dirs (script Toy.libs (Toy.start Missing)).2 = [LOG_DIR].
Proof.
  assert (H : w_console (script Toy.libs (Toy.start Missing)).2
              = [ [NL; Lit "Database path: "; PathOf DB_PATH];
                  [Lit "Database exists: "; Bool false];
                  [Lit "Log file: ";
                   PathOf (Join LOG_DIR (py "AAD_analysis_20250101_120000.log"));
                   NL];
                  [Lit "ERROR: Database file not found!"] ])
    by (vm_compute; reflexivity).
  split; [reflexivity|]. split; [exact H|]. split; [rewrite H; discriminate|].
  split; [reflexivity|vm_compute; reflexivity].
Qed.

(** * More on the clean-up of the export *)

(** ** [strip] *)

Lemma lstrip_split s : ∃ a, s = a ++ lstrip s ∧ blank a.
Proof.
  induction s as [|c s (a & Ha & Hb)]; [exists []; split; [done|constructor]|].
  simpl. destruct (isspace c) eqn:Hc; [|exists []; split; [done|constructor]].
  exists (c :: a). split; [by rewrite <- app_comm_cons, <- Ha|].
  by constructor.
Qed.

Lemma lstrip_first c s r : lstrip s = c :: r → isspace c = false.
Proof.
  induction s as [|d s IH]; [done|]. simpl.
  destruct (isspace d) eqn:Hd; [done|]. by intros [= <- _].
Qed.

Lemma rstrip_split s : ∃ b, s = rstrip s ++ b ∧ blank b.
Proof.
  unfold rstrip. destruct (lstrip_split (rev s)) as (a & Ha & Hb).
  exists (rev a). split.
  - rewrite <- rev_app_distr, <- Ha. by rewrite rev_involutive.
  - unfold blank in *. apply Forall_forall. intros c Hc.
    apply list_elem_of_In, in_rev, list_elem_of_In in Hc.
    by apply (proj1 (Forall_forall _ _) Hb).
Qed.

Lemma rstrip_last s d : last (rstrip s) = Some d → isspace d = false.
Proof.
  unfold rstrip. destruct (lstrip (rev s)) as [|c r] eqn:Hl; [done|].
  apply lstrip_first in Hl. simpl. rewrite last_snoc. by intros [= <-].
Qed.

(** [strip] removes white space at both ends and nothing else. *)
Lemma strip_split s : ∃ a b, s = a ++ strip s ++ b ∧ blank a ∧ blank b.
Proof.
  unfold strip. destruct (rstrip_split s) as (b & Hs & Hb).
  destruct (lstrip_split (rstrip s)) as (a & Ha & Hba).
  exists a, b. split; [|done]. by rewrite app_assoc, <- Ha.
Qed.

Lemma strip_is_trimmed s : trimmed (strip s).
Proof.
  unfold strip. destruct (lstrip (rstrip s)) as [|c r] eqn:Hl; [done|].
  split; [by apply lstrip_first in Hl|].
  destruct (lstrip_split (rstrip s)) as (a & Ha & _). rewrite Hl in Ha.
  assert (Hlast : last (rstrip s) = last (c :: r)).
  { rewrite Ha at 1. by rewrite last_app_cons. }
  destruct (last (c :: r)) as [d|] eqn:Hd.
  - exists d. split; [done|]. by apply (rstrip_last s).
  - by apply last_None in Hd.
Qed.

(** ** When the clean-up raises *)

Lemma df_getitem_found pre col s rest :
  col ∉ df_columns pre → col ∉ df_columns rest →
  df_getitem (pre ++ (col, s) :: rest) col = Ok s.
Proof.
  intros Hpre Hrest. unfold df_getitem.
  change (fun p : pystr * Series => bool_decide (p.1 = col)) with (labelled col).
  rewrite List.filter_app, (filter_absent _ _ Hpre). simpl.
  unfold labelled at 1. simpl. rewrite bool_decide_eq_true_2 by done.
  by rewrite (filter_absent _ _ Hrest).
Qed.

Lemma clean_series_cleanable s s' : clean_series s = Ok s' → cleanable s.
Proof. intros H _. by apply clean_series_ok in H as (_ & Ha & _). Qed.

Lemma clean_loop_accepts suf : ∀ pre,
  (∀ n, n ∈ df_columns suf → n ∉ df_columns pre) →
  NoDup (df_columns suf) → Forall (λ p, cleanable p.2) suf →
  clean_loop (df_columns suf) (pre ++ suf) = Ok (pre ++ cleaned suf).
Proof.
  induction suf as [|[col s] suf IH]; intros pre Hfresh Hnd Hall; [done|].
  apply NoDup_cons in Hnd as [Hcol Hnd]. apply Forall_cons in Hall as [Hs Hall].
  assert (Hpre : col ∉ df_columns pre) by (apply Hfresh; left).
  cbn [df_columns map fst clean_loop]. rewrite df_getitem_found by done.
  cbn [rbind cleaned map fst snd]. unfold clean_column. simpl in Hs.
  assert (Hnext : ∀ s', ∀ n, n ∈ df_columns suf →
            n ∉ df_columns (pre ++ [(col, s')])).
  { intros s' n Hn. unfold df_columns. rewrite map_app.
    apply not_elem_of_app. split; [apply Hfresh; by right|].
    simpl. apply not_elem_of_cons. split; [|apply not_elem_of_nil].
    by intros ->. }
  destruct (decide (s_dtype s = dt_object)) as [Hd|Hd].
  - rewrite (clean_series_accepts s Hd (Hs Hd)). cbn [rbind].
    rewrite df_setitem_unique by done.
    rewrite (cons_middle _ pre suf), app_assoc.
    fold (df_columns suf). rewrite IH by auto.
    by rewrite <- app_assoc.
  - rewrite (cons_middle _ pre suf), app_assoc.
    fold (df_columns suf). rewrite IH by auto.
    by rewrite <- app_assoc.
Qed.

Lemma clean_loop_refuses suf : ∀ pre df',
  (∀ n, n ∈ df_columns suf → n ∉ df_columns pre) →
  clean_loop (df_columns suf) (pre ++ suf) = Ok df' →
  NoDup (df_columns suf) ∧ Forall (λ p, cleanable p.2) suf.
Proof.
  induction suf as [|[col s] suf IH]; intros pre df' Hfresh; simpl.
  - intros _. split; constructor.
  - assert (Hpre : col ∉ df_columns pre) by (apply Hfresh; left).
    destruct (df_getitem _ col) as [s0|] eqn:Hget; [|done]. simpl.
    apply df_getitem_unique in Hget as [-> Hrest]; [|done].
    assert (Hnext : ∀ s', ∀ n, n ∈ df_columns suf →
              n ∉ df_columns (pre ++ [(col, s')])).
    { intros s' n Hn. unfold df_columns. rewrite map_app.
      apply not_elem_of_app. split; [apply Hfresh; by right|].
      simpl. apply not_elem_of_cons. split; [|apply not_elem_of_nil].
      by intros ->. }
    destruct (decide (s_dtype s = dt_object)) as [Hd|Hd].
    + destruct (clean_series s) as [s'|] eqn:Hs; [|done]. simpl.
      apply clean_series_cleanable in Hs as Hc.
      rewrite df_setitem_unique by done.
      rewrite (cons_middle _ pre suf), app_assoc. intros H.
      apply IH in H as [Hnd Hall]; [|apply Hnext].
      split; [by apply NoDup_cons|by apply Forall_cons].
    + rewrite (cons_middle _ pre suf), app_assoc. intros H.
      apply IH in H as [Hnd Hall]; [|apply Hnext].
      split; [by apply NoDup_cons|]. apply Forall_cons. split; [|done].
      by intros ?.
Qed.

(** The clean-up of a frame raises nothing exactly when the labels of
    its columns are pairwise distinct and every column of object dtype
    holds a text, or nothing but missing values. *)
Theorem clean_frame_succeeds_iff df :
  (∃ df', clean_frame df = Ok df')
  ↔ NoDup (df_columns df) ∧ Forall (λ p, cleanable p.2) df.
Proof.
  split.
  - intros [df' H]. apply (clean_loop_refuses df [] df'); [|done].
    intros n _. apply not_elem_of_nil.
  - intros [Hnd Hall]. exists (cleaned df).
    apply (clean_loop_accepts df []); [|done..].
    intros n _. apply not_elem_of_nil.
Qed.

Lemma clean_cell_idempotent c : clean_cell (clean_cell c) = clean_cell c.
Proof.
  destruct c; simpl; try done. f_equal.
  apply clean_text_id;
    [apply clean_text_no_LF|apply clean_text_no_CR|apply strip_is_trimmed].
Qed.

Lemma clean_column_cleanable s : cleanable (clean_column s).
Proof.
  unfold clean_column. destruct (decide (s_dtype s = dt_object)) as [Hs|Hs].
  - intros _. cbn [s_values]. induction (s_values s) as [|c vs IH]; [done|].
    cbn [map existsb forallb].
    destruct c; cbn [clean_cell is_text is_null orb andb]; done.
  - by intros ?.
Qed.

Lemma clean_column_idempotent s : clean_column (clean_column s) = clean_column s.
Proof.
  unfold clean_column. destruct (decide (s_dtype s = dt_object)) as [Hs|Hs].
  - cbn [s_dtype s_values]. rewrite decide_True by done. f_equal.
    rewrite <- list_fmap_compose. apply list_fmap_ext. intros _ c _.
    apply clean_cell_idempotent.
  - by rewrite decide_False.
Qed.

(** The clean-up is idempotent: on a frame it has cleaned it raises
    nothing and changes nothing. *)
Theorem clean_frame_idempotent df df' :
  clean_frame df = Ok df' → clean_frame df' = Ok df'.
Proof.
  intros H. apply clean_frame_ok in H as Hdf. subst df'.
  assert (Hok : ∃ df', clean_frame df = Ok df') by eauto.
  apply clean_frame_succeeds_iff in Hok as [Hnd _].
  assert (Hcols : df_columns (cleaned df) = df_columns df).
  { unfold cleaned, df_columns. rewrite <- list_fmap_compose.
    by apply list_fmap_ext. }
  assert (Hidem : cleaned (cleaned df) = cleaned df).
  { unfold cleaned. rewrite <- list_fmap_compose. apply list_fmap_ext.
    intros _ [col s] _. simpl. by rewrite clean_column_idempotent. }
  rewrite <- Hidem at 2. apply (clean_loop_accepts (cleaned df) []).
  - intros n _. apply not_elem_of_nil.
  - by rewrite Hcols.
  - unfold cleaned. apply Forall_fmap, Forall_forall. intros [col s] _.
    apply clean_column_cleanable.
Qed.

Lemma clean_frame_idempotent_witness :
  clean_frame (frame_of Toy.notes) = Ok (cleaned (frame_of Toy.notes))
  ∧ clean_frame (cleaned (frame_of Toy.notes)) = Ok (cleaned (frame_of Toy.notes)).
Proof.
  assert (H : clean_frame (frame_of Toy.notes) = Ok (cleaned (frame_of Toy.notes)))
    by (vm_compute; reflexivity).
  split; [exact H|]. exact (clean_frame_idempotent _ _ H).
Defined.

(** ** What the clean-up keeps and what it loses *)

(** The clean-up keeps the shape of the frame: the labels, the dtypes
    and the number of values of every column. *)
Theorem clean_frame_keeps_shape df df' :
  clean_frame df = Ok df' →
  df_columns df' = df_columns df
  ∧ df_dtypes df' = df_dtypes df
  ∧ df_heights df' = df_heights df
  ∧ df_shape df' = df_shape df.
Proof.
  intros H. apply clean_frame_ok in H as ->.
  assert (Hcol : ∀ s, s_dtype (clean_column s) = s_dtype s
                      ∧ length (s_values (clean_column s)) = length (s_values s)).
  { intros s. unfold clean_column.
    destruct (decide (s_dtype s = dt_object)) as [Hs|Hs]; [|done].
    simpl. by rewrite length_map. }
  unfold df_columns, df_dtypes, df_heights, df_shape, df_len, cleaned.
  rewrite <- !list_fmap_compose, length_map.
  split; [by apply list_fmap_ext|].
  split; [apply list_fmap_ext; intros _ [col s] _; apply Hcol|].
  split; [apply list_fmap_ext; intros _ [col s] _; apply Hcol|].
  destruct df as [|[col s] df]; [done|]. simpl. f_equal. apply Hcol.
Qed.

Lemma clean_frame_keeps_shape_witness :
  clean_frame (frame_of Toy.attacks) = Ok (cleaned (frame_of Toy.attacks))
  ∧ df_shape (cleaned (frame_of Toy.attacks)) = (3, 4).
Proof.
  assert (H : clean_frame (frame_of Toy.attacks)
              = Ok (cleaned (frame_of Toy.attacks)))
    by (vm_compute; reflexivity).
  split; [exact H|].
  destruct (clean_frame_keeps_shape _ _ H) as (_ & _ & _ & Hs).
  rewrite Hs. reflexivity.
Defined.

(** In a column of object dtype, a value that is not a text comes out
    of the clean-up missing, whatever it was. *)
Theorem clean_frame_loses_other_values df df' i j col s v :
  clean_frame df = Ok df' →
  df !! i = Some (col, s) → s_dtype s = dt_object →
  s_values s !! j = Some v → is_text v = false →
  cell_at df' i j = Some VNull.
Proof.
  intros H Hi Hs Hj Hv. apply clean_frame_ok in H as ->.
  unfold cell_at. rewrite cleaned_lookup, Hi. simpl.
  unfold clean_column. rewrite decide_True by done. simpl.
  rewrite list_lookup_fmap, Hj. simpl. by destruct v.
Qed.

Lemma clean_frame_loses_other_values_witness :
  clean_frame (frame_of Toy.notes) = Ok (cleaned (frame_of Toy.notes))
  ∧ cell_at (frame_of Toy.notes) 0 0 = Some (VInt 5)
  ∧ cell_at (cleaned (frame_of Toy.notes)) 0 0 = Some VNull.
Proof.
  assert (H : clean_frame (frame_of Toy.notes) = Ok (cleaned (frame_of Toy.notes)))
    by (vm_compute; reflexivity).
  split; [exact H|]. split; [reflexivity|].
  apply (clean_frame_loses_other_values _ _ 0 0 (py "Rank")
           (mkSeries dt_object [VInt 5; VText (py "high")]) (VInt 5) H);
    reflexivity.
Defined.

(** In a column the clean-up accepts, what becomes of a text is a piece
    of the text in which the line breaks have become spaces: only white
    space is cut, and only at the two ends. *)
Theorem clean_series_cuts_ends s s' j x :
  clean_series s = Ok s' → s_values s !! j = Some (VText x) →
  ∃ y a b,
    s_values s' !! j = Some (VText y)
    ∧ replace CR SPACE (replace LF SPACE x) = a ++ y ++ b
    ∧ blank a ∧ blank b
    ∧ trimmed y
    ∧ length y ≤ length x.
Proof.
  intros H Hj. apply clean_series_ok in H as (_ & _ & ->).
  destruct (strip_split (replace CR SPACE (replace LF SPACE x)))
    as (a & b & Hs & Ha & Hb).
  exists (clean_text x), a, b. cbn [s_values].
  split; [by rewrite list_lookup_fmap, Hj|]. split; [exact Hs|].
  split; [done|]. split; [done|]. split; [apply strip_is_trimmed|].
  assert (Hlen : length (replace CR SPACE (replace LF SPACE x)) = length x)
    by (unfold replace; by rewrite !length_map).
  unfold clean_text. rewrite <- Hlen. rewrite Hs at 2. rewrite !length_app. lia.
Qed.

Lemma clean_series_cuts_ends_witness :
  clean_series (Toy.text [py " Replay"; py "Replay "])
  = Ok (Toy.text [py "Replay"; py "Replay"])
  ∧ ∃ y a b,
      s_values (Toy.text [py "Replay"; py "Replay"]) !! 0 = Some (VText y)
      ∧ py " Replay" = a ++ y ++ b
      ∧ blank a ∧ blank b.
Proof.
  assert (H : clean_series (Toy.text [py " Replay"; py "Replay "])
              = Ok (Toy.text [py "Replay"; py "Replay"]))
    by (vm_compute; reflexivity).
  split; [exact H|].
  destruct (clean_series_cuts_ends _ _ 0 (py " Replay") H eq_refl)
    as (y & a & b & Hy & Hs & Ha & Hb & _).
  exists y, a, b. split; [exact Hy|]. split; [exact Hs|]. split; [exact Ha|exact Hb].
Defined.

(** * What the stages leave alone *)

Section LogsOnly.

Context (L : Libs).

Lemma logs_only_ret {A} (a : A) : logs_only (ret a).
Proof. by intros w. Qed.

Lemma logs_only_lift {A} (r : result A) : logs_only (lift r).
Proof. by intros w. Qed.

Lemma logs_only_log_output msg : logs_only (log_output msg).
Proof. by intros w. Qed.

Lemma logs_only_call s : logs_only (call s).
Proof. by intros w. Qed.

Lemma logs_only_connect : logs_only connect.
Proof. by intros w. Qed.

Lemma logs_only_close c : logs_only (close c).
Proof. by intros w. Qed.

Lemma logs_only_execute {A} c q (answer : database → result A) :
  logs_only (execute c q answer).
Proof. by intros w. Qed.

Lemma logs_only_read_sql_query q c : logs_only (read_sql_query L q c).
Proof. by intros w. Qed.

Lemma logs_only_bind {A B} (m : M A) (f : A → M B) :
  logs_only m → (∀ a, logs_only (f a)) → logs_only (bind m f).
Proof.
  intros Hm Hf w. unfold bind. destruct (Hm w) as (H1 & H2 & H3 & H4 & H5).
  destruct (m w) as [[a|e] w1]; cbn [snd] in *; [|done].
  destruct (Hf a w1) as (G1 & G2 & G3 & G4 & G5).
  by rewrite G1, G2, G3, G4, G5.
Qed.

Lemma logs_only_try_except {A} (m : M A) (h : exn → M A) :
  logs_only m → (∀ e, logs_only (h e)) → logs_only (try_except m h).
Proof.
  intros Hm Hh w. unfold try_except. destruct (Hm w) as (H1 & H2 & H3 & H4 & H5).
  destruct (m w) as [[a|e] w1]; cbn [snd] in *; [done|].
  destruct (Hh e w1) as (G1 & G2 & G3 & G4 & G5).
  by rewrite G1, G2, G3, G4, G5.
Qed.

Lemma logs_only_for_each {A} (l : list A) (body : A → M unit) :
  (∀ x, logs_only (body x)) → logs_only (for_each l body).
Proof.
  intros Hb. induction l as [|x l IH]; simpl.
  - apply logs_only_ret.
  - apply logs_only_bind; auto.
Qed.

Lemma logs_only_for_fold {A S} (l : list A) (body : A → S → M S) :
  (∀ x s, logs_only (body x s)) → ∀ s, logs_only (for_fold l s body).
Proof.
  intros Hb. induction l as [|x l IH]; intros s; simpl.
  - apply logs_only_ret.
  - apply logs_only_bind; auto.
Qed.

End LogsOnly.

Ltac logs :=
  repeat lazymatch goal with
  | |- logs_only (bind _ _) => apply logs_only_bind; [|intros ?]
  | |- logs_only (try_except _ _) => apply logs_only_try_except; [|intros ?]
  | |- logs_only (for_each _ _) => apply logs_only_for_each; intros ?
  | |- logs_only (for_fold _ _ _) => apply logs_only_for_fold; intros ? ?
  | |- logs_only (ret _) => apply logs_only_ret
  | |- logs_only (lift _) => apply logs_only_lift
  | |- logs_only (log_output _) => apply logs_only_log_output
  | |- logs_only (call _) => apply logs_only_call
  | |- logs_only connect => apply logs_only_connect
  | |- logs_only (close _) => apply logs_only_close
  | |- logs_only (execute _ _ _) => apply logs_only_execute
  | |- logs_only (read_sql_query _ _ _) => apply logs_only_read_sql_query
  | |- logs_only (banner _) => unfold banner
  | |- logs_only (load_table _ _ _ _) => unfold load_table
  | |- logs_only (example_queries_body _ _) => unfold example_queries_body
  end.

(** Schema inspection, bulk load and the example queries write to the
    log only: whatever the file at [DB_PATH] and the answers of the
    libraries, and also when they raise, they print nothing, write no
    CSV file, make no directory and do not read the clock. *)
Theorem first_three_stages_log_only L :
  logs_only inspect_database
  ∧ logs_only (load_data L)
  ∧ logs_only (example_queries L).
Proof.
  split; [|split].
  - unfold inspect_database. logs.
  - unfold load_data. logs.
  - unfold example_queries. logs.
Qed.

(** ** The files of a whole run *)

Section RunFiles.

Context (L : Libs).

Lemma stages_log_only :
  logs_only inspect_database
  ∧ logs_only (load_data L)
  ∧ logs_only (example_queries L).
Proof.
  split; [|split].
  - unfold inspect_database. logs.
  - unfold load_data. logs.
  - unfold example_queries. logs.
Qed.

Lemma logs_only_after {A} (m : M A) w r w' :
  logs_only m → m w = (r, w') →
  w_csv w' = w_csv w ∧ w_clock w' = w_clock w ∧ w_console w' = w_console w.
Proof.
  intros Hm Hrun. destruct (Hm w) as (H1 & H2 & _ & H4 & _).
  rewrite Hrun in H1, H2, H4. by cbn [snd] in *.
Qed.

(** The files a run writes depend on the database and on the clock
    only: when nothing stops the export, a run writes one file for each
    table, in order; the first reading of the clock names the log file
    and the readings that follow stamp the CSV files, whatever the
    example queries did; the paths of the files are pairwise distinct
    when the names of the tables are, once their spaces are
    underscores. *)
Theorem script_files w db :
  w_dbfile w = Sqlite db → exportable L db → plain_stamps L →
  ∃ w',
    script L w = (Ok tt, w')
    ∧ last (w_console w')
      = Some [NL; Lit "Analysis complete! Results saved to: ";
              PathOf (Join LOG_DIR (py "AAD_analysis_"
                                    ++ strftime_now L (w_clock w) ++ py ".log"))]
    ∧ w_csv w' = w_csv w ++ export_files L db (S (w_clock w)) (map t_name db)
    ∧ (∀ k t,
         map t_name db !! k = Some t →
         w_csv w' !! (length (w_csv w) + k)
         = Some (Join OUTPUT_DIR
                   (csv_filename t (strftime_now L (S (w_clock w) + k))),
                 cleaned (table_frame db t)))
    ∧ (NoDup (map (replace SPACE UNDERSCORE) (map t_name db)) →
       NoDup (map fst (export_files L db (S (w_clock w)) (map t_name db)))).
Proof.
  intros Hw Hx Hst. pose proof (exportable_plain L db Hx) as Hp.
  destruct stages_log_only as (Li & Ll & Lq).
  rewrite (script_found L w) by congruence.
  destruct (greeted_fields L w true) as (Hgd & _ & _ & Hgcsv & _ & Hgclock).
  assert (Hg : w_dbfile (greeted L w true) = Sqlite db) by congruence.
  destruct (inspect_database_ok db _ Hg Hp) as (w1 & H1 & _ & _ & Hd1 & _).
  destruct (load_data_ok L db w1 Hd1 Hp) as (w2 & H2 & _ & _ & Hd2 & _).
  destruct (example_queries_segment L w2 db Hd2) as (q3 & w3 & H3 & _ & Hd3 & _).
  destruct (export_to_csv_ok L db w3 Hd3 Hx Hst) as (w4 & H4 & _ & _ & _ & _ & Hcsv).
  destruct (logs_only_after _ _ _ _ Li H1) as (C1 & K1 & _).
  destruct (logs_only_after _ _ _ _ Ll H2) as (C2 & K2 & _).
  destruct (logs_only_after _ _ _ _ Lq H3) as (C3 & K3 & _).
  rewrite C3, C2, C1, K3, K2, K1, Hgcsv, Hgclock in Hcsv.
  eexists. unfold bind at 1. rewrite H1. unfold bind at 1. rewrite H2.
  unfold bind at 1. rewrite H3. unfold bind at 1. rewrite H4.
  split; [reflexivity|]. unfold print. fields.
  split; [apply last_snoc|]. split; [exact Hcsv|]. split.
  - intros k t Ht. rewrite Hcsv, lookup_app_r, Nat.add_comm, Nat.add_sub by lia.
    by rewrite export_files_lookup, Ht.
  - intros Hnd. by apply export_files_distinct.
Qed.

End RunFiles.

Lemma script_files_witness :
  w_dbfile (Toy.start (Sqlite Toy.db)) = Sqlite Toy.db
  ∧ exportable Toy.libs Toy.db
  ∧ plain_stamps Toy.libs
  ∧ ∃ w',
      script Toy.libs (Toy.start (Sqlite Toy.db)) = (Ok tt, w')
      ∧ w_csv w' = export_files Toy.libs Toy.db 1 (map t_name Toy.db).
Proof.
  split; [reflexivity|]. split; [exact toy_exportable|].
  split; [exact toy_plain_stamps|].
  destruct (script_files Toy.libs (Toy.start (Sqlite Toy.db)) Toy.db eq_refl
              toy_exportable toy_plain_stamps)
    as (w' & Hrun & _ & Hcsv & _).
  exists w'. split; [exact Hrun|exact Hcsv].
Defined.

(** * The report of the schema inspection *)



(** * The export, table by table *)

(** The report of an export that nothing stops: the directory of the
    exports is made, the tables are enumerated and read one by one, each
    file is written and reported in the log with its numbers of rows and
    columns, which are those of the table, and its path; the closing
    line goes to the log and to the console. *)
Theorem export_to_csv_report L db w :
  w_dbfile w = Sqlite db → exportable L db → plain_stamps L →
  ∃ w',
    export_to_csv L w = (Ok tt, w')
    ∧ w_dirs w' = w_dirs w ++ [OUTPUT_DIR]
    ∧ w_trace w'
      = w_trace w
        ++ segment Export (w_conns w) (ListTables :: map SelectAll (map t_name db))
    ∧ log_lines w'
      = log_lines w ++ banner_lines "EXPORTING DATA TO CSV"
        ++ export_reports L db (w_clock w) (map t_name db)
        ++ [[NL; Lit "All exports complete! Files saved to: "; PathOf OUTPUT_DIR]]
    ∧ w_console w'
      = w_console w
        ++ [[NL; Lit "CSV export complete! Files saved to: "; PathOf OUTPUT_DIR]]
    ∧ ∀ t, t ∈ map t_name db →
        df_len (cleaned (table_frame db t)) = table_rows db t
        ∧ length (df_columns (cleaned (table_frame db t)))
          = length (table_schema db t).
Proof.
  intros Hw Hx Hst.
  destruct (export_to_csv_ok L db w Hw Hx Hst) as (w' & Hrun & Hd & Ht & Hl & Hc & _).
  exists w'. split; [done|]. split; [done|]. split; [done|]. split; [done|].
  split; [done|].
  intros t (tb & Htb & _)%find_table_elem.
  unfold table_frame, table_rows, table_schema. rewrite Htb. cbn [from_option].
  unfold cleaned, df_columns, frame_of, df_len, row_count.
  rewrite !length_map. split; [|done].
  destruct (t_columns tb) as [|col cols]; [done|]. simpl.
  unfold clean_column. destruct (decide _); [|done]. simpl. by rewrite length_map.
Qed.

Lemma export_to_csv_report_witness :
  w_dbfile (Toy.start (Sqlite Toy.db)) = Sqlite Toy.db
  ∧ exportable Toy.libs Toy.db
  ∧ plain_stamps Toy.libs
  ∧ ∃ w',
      export_to_csv Toy.libs (Toy.start (Sqlite Toy.db)) = (Ok tt, w')
      ∧ w_dirs w' = [OUTPUT_DIR]
      ∧ w_console w'
        = [[NL; Lit "CSV export complete! Files saved to: "; PathOf OUTPUT_DIR]].
Proof.
  split; [reflexivity|]. split; [exact toy_exportable|].
  split; [exact toy_plain_stamps|].
  destruct (export_to_csv_report Toy.libs Toy.db (Toy.start (Sqlite Toy.db))
              eq_refl toy_exportable toy_plain_stamps)
    as (w' & Hrun & Hd & _ & _ & Hc & _).
  exists w'. split; [exact Hrun|]. split; [exact Hd|exact Hc].
Defined.

(** An export in which the clean-up of a table raises, after tables
    that nothing stopped, stops there: the tables before it have their
    files, that table and those after it have none and the ones after
    it are not even read; the exception is reported in the log and on
    the console and the stage returns. *)
Theorem export_stops_at_first_failure L db w pre t post e :
  w_dbfile w = Sqlite db → plain_stamps L →
  map t_name db = pre ++ t :: post →
  ready L db pre → DQUOTE ∉ t →
  clean_frame (table_frame db t) = Raise e →
  ∃ w',
    export_to_csv L w = (Ok tt, w')
    ∧ w_csv w' = w_csv w ++ export_files L db (w_clock w) pre
    ∧ w_trace w'
      = w_trace w
        ++ segment Export (w_conns w) (ListTables :: map SelectAll (pre ++ [t]))
    ∧ last (log_lines w') = Some [Lit "Export error: "; Exc e]
    ∧ w_console w' = w_console w ++ [[Lit "Export error: "; Exc e]].
Proof.
  intros Hw Hst Hnames Hready Hq He. unfold export_to_csv. rewrite export_opened.
  pose proof (opened_export_dbfile w db Hw) as Hd.
  pose proof (opened_export_trace w) as Ht0.
  destruct (opened_export_fields w) as (Hcsv0 & Hk0 & Hc0 & Hdir0 & _).
  set (c := w_conns w) in *. set (w0 := opened_export w) in *.
  destruct (export_loop_stops L db c pre t post e (emit (EvExecute c ListTables) w0))
    as (w1 & H1 & Hcsv1 & Ht1 & Hc1); [done|done|done| | |done|done|].
  { fields. rewrite Hdir0. apply elem_of_app. right. by left. }
  { rewrite Hnames. apply elem_of_app. right. by left. }
  revert Hcsv1 Ht1 Hc1. fields. intros Hcsv1 Ht1 Hc1.
  eexists. split.
  - unfold bind at 1, try_except, export_body. rewrite bind_execute, Hd.
    cbn [sqlite_answer answer_tables]. unfold bind at 1. rewrite Hnames, H1.
    rewrite bind_log_output. unfold print, close. reflexivity.
  - fields. rewrite Hcsv1, Hcsv0, Hk0, Ht1, Ht0, Hc1, Hc0.
    split; [done|]. split.
    { unfold segment. rewrite <- !app_assoc. cbn [map app]. f_equal.
      f_equal. f_equal. f_equal. by rewrite (map_map SelectAll). }
    split; [apply last_snoc|done].
Qed.

Lemma toy_mixed_ready : ready Toy.libs Toy.mixed [py "Notes"].
Proof.
  intros u Hu. apply list_elem_of_singleton in Hu as ->.
  split; [by left|].
  split; [|split]; [apply (bool_decide_unpack _); vm_compute; exact I..|].
  split; [done|]. eexists. vm_compute. reflexivity.
Defined.

Lemma export_stops_at_first_failure_witness :
  w_dbfile (Toy.start (Sqlite Toy.mixed)) = Sqlite Toy.mixed
  ∧ plain_stamps Toy.libs
  ∧ map t_name Toy.mixed
    = [py "Notes"] ++ py "Blobs" :: [py "Automotive Security Attacks"]
  ∧ ready Toy.libs Toy.mixed [py "Notes"]
  ∧ ∃ w',
      export_to_csv Toy.libs (Toy.start (Sqlite Toy.mixed)) = (Ok tt, w')
      ∧ w_csv w' = export_files Toy.libs Toy.mixed 0 [py "Notes"]
      ∧ w_trace w'
        = segment Export 0
            [ListTables; SelectAll (py "Notes"); SelectAll (py "Blobs")].
Proof.
  split; [reflexivity|]. split; [exact toy_plain_stamps|].
  split; [reflexivity|]. split; [exact toy_mixed_ready|].
  destruct (export_stops_at_first_failure Toy.libs Toy.mixed
              (Toy.start (Sqlite Toy.mixed)) [py "Notes"] (py "Blobs")
              [py "Automotive Security Attacks"]
              (NOT_FOR_BYTES "replace")
              eq_refl toy_plain_stamps eq_refl toy_mixed_ready)
    as (w' & Hrun & Hcsv & Ht & _).
  - apply (bool_decide_unpack _). vm_compute. exact I.
  - vm_compute. reflexivity.
  - exists w'. split; [exact Hrun|]. split; [exact Hcsv|exact Ht].
Defined.

(** * Names of the CSV files *)

Lemma replace_length old new s : length (replace old new s) = length s.
Proof. unfold replace. by rewrite length_map. Qed.

(** Two tables get the same file name at the same time stamp exactly
    when their names are the same once every space is an underscore; the
    part of the file name that comes from the table holds no space. *)
Theorem csv_filename_same_iff t1 t2 stamp :
  (csv_filename t1 stamp = csv_filename t2 stamp
   ↔ replace SPACE UNDERSCORE t1 = replace SPACE UNDERSCORE t2)
  ∧ (SPACE ∉ replace SPACE UNDERSCORE t1)
  ∧ length (csv_filename t1 stamp) = 9 + length t1 + length stamp.
Proof.
  split; [|split].
  - unfold csv_filename. split.
    + intros H. apply app_inv_head in H. by apply app_inv_tail in H.
    + by intros ->.
  - by apply replace_removes.
  - unfold csv_filename. rewrite !length_app, replace_length.
    change (length (py "AAD_")) with 4. change (length (py "_")) with 1.
    change (length (py ".csv")) with 4. lia.
Qed.

(** * Bulk load: the statements *)


